(** * ContactForm: validation, submission and status banner

    A shallow embedding of [src/components/ContactForm.tsx]: the zod schema
    [contactFormSchema], the asynchronous handler [onSubmit], the part of
    react-hook-form's [handleSubmit] that the component relies on, and the
    attributes the rendered form derives from the component state. *)

From Stdlib Require Import NArith Lia.
From stdpp Require Import base option list strings gmap.

Local Open Scope N_scope.

(** ** JavaScript strings

    A JavaScript string is a sequence of UTF-16 code units; [s.length] counts
    code units. The literals of the source file are written here as Rocq
    strings (UTF-8 bytes) and decoded by [js]. *)

Abbreviation jsstring := (list N).

Fixpoint utf16_of_utf8 (bs : list N) : jsstring :=
  match bs with
  | [] => []
  | b0 :: r0 =>
    if b0 <? 0x80 then b0 :: utf16_of_utf8 r0
    else if b0 <? 0xE0 then
      match r0 with
      | b1 :: r1 =>
        N.lor (N.shiftl (N.land b0 0x1F) 6) (N.land b1 0x3F) :: utf16_of_utf8 r1
      | _ => [0xFFFD]
      end
    else if b0 <? 0xF0 then
      match r0 with
      | b1 :: b2 :: r2 =>
        N.lor (N.shiftl (N.land b0 0x0F) 12)
              (N.lor (N.shiftl (N.land b1 0x3F) 6) (N.land b2 0x3F))
          :: utf16_of_utf8 r2
      | _ => [0xFFFD]
      end
    else
      match r0 with
      | b1 :: b2 :: b3 :: r3 =>
        let cp := N.lor (N.shiftl (N.land b0 0x07) 18)
                    (N.lor (N.shiftl (N.land b1 0x3F) 12)
                       (N.lor (N.shiftl (N.land b2 0x3F) 6) (N.land b3 0x3F))) in
        let v := cp - 0x10000 in
        (0xD800 + N.shiftr v 10) :: (0xDC00 + N.land v 0x3FF) :: utf16_of_utf8 r3
      | _ => [0xFFFD]
      end
  end.

Definition js (s : string) : jsstring :=
  utf16_of_utf8 (map (λ b, N.of_nat (Ascii.nat_of_ascii b)) (String.list_ascii_of_string s)).

(** The [length] property of a string. *)
Definition js_length (s : jsstring) : nat := length s.

(** ** Data model *)

(** [ContactFormData = z.infer<typeof contactFormSchema>]: three strings. *)
Record ContactFormData := mkData {
  name : jsstring;
  email : jsstring;
  message : jsstring
}.

(** The value of [submitStatus] when it is not [null]. *)
Record SubmitStatus := mkStatus {
  success : bool;
  status_message : jsstring
}.

(** ** The schema (lines 8-12)

    zod checks every key of the object and collects the issues of all of
    them; an issue carries the path of the field and the message given to
    the check. *)

Record ZodIssue := mkIssue {
  issue_path : string;
  issue_message : jsstring
}.

(** [z.string().min(n, { message })]: an issue when [value.length < n]. *)
Definition string_min (n : nat) (msg : jsstring) (value : jsstring) : list jsstring :=
  if (js_length value <? n)%nat then [msg] else [].

(** [z.string().email({ message })]: an issue when the pattern of the
    library rejects the value. *)
Definition string_email (pattern : jsstring → bool) (msg : jsstring)
    (value : jsstring) : list jsstring :=
  if pattern value then [] else [msg].

Definition name_message : jsstring :=
  js "O nome precisa ter no mínimo 3 caracteres.".
Definition email_message : jsstring :=
  js "Por favor, insira um email válido.".
Definition message_message : jsstring :=
  js "A mensagem precisa ter no mínimo 10 caracteres.".

Definition at_path (p : string) (msgs : list jsstring) : list ZodIssue :=
  map (mkIssue p) msgs.

Section Schema.

(** zod is a dependency, not part of the repository: the pattern behind
    [.email()] is a parameter of the development. *)
Variable email_pattern : jsstring → bool.

Definition contactFormSchema_issues (data : ContactFormData) : list ZodIssue :=
  at_path "name" (string_min 3 name_message (name data))
  ++ at_path "email" (string_email email_pattern email_message (email data))
  ++ at_path "message" (string_min 10 message_message (message data)).

(** [contactFormSchema.safeParse]: the parsed object, which holds the three
    strings of the input under the keys of the schema, or the issues. *)
Definition contactFormSchema (data : ContactFormData)
    : list ZodIssue + ContactFormData :=
  match contactFormSchema_issues data with
  | [] => inr data
  | issues => inl issues
  end.

(** [zodResolver]: the issues become the [errors] object of the form,
    one entry per field, the first issue of a field winning. *)
Definition to_field_errors (issues : list ZodIssue) : gmap string jsstring :=
  foldr (λ i acc, <[issue_path i := issue_message i]> acc) ∅ issues.

Definition zodResolver (data : ContactFormData)
    : gmap string jsstring + ContactFormData :=
  match contactFormSchema data with
  | inr parsed => inr parsed
  | inl issues => inl (to_field_errors issues)
  end.

End Schema.

(** An instance of the parameter, after the pattern zod publishes for
    [.email()], matched without regard to case: the value must not start
    with a dot nor contain two dots in a row; before the single [@] come any
    number of letters, digits and [_ ' + - .] and then one letter, digit or
    [_ + -]; after it one or more labels (a letter or digit, then letters,
    digits and [-]), each followed by a dot, and at last two or more letters.
    No theorem below depends on it; it serves to evaluate them on concrete
    inputs. *)
Module ZodEmail.

Definition between (lo hi c : N) : bool := (lo <=? c) && (c <=? hi).
Definition is_alpha (c : N) : bool := between 0x41 0x5A c || between 0x61 0x7A c.
Definition is_alnum (c : N) : bool := is_alpha c || between 0x30 0x39 c.
Definition is_one_of (cs : list N) (c : N) : bool := existsb (N.eqb c) cs.

(** The characters of the local part, and those allowed as its last. *)
Definition local_char (c : N) : bool := is_alnum c || is_one_of (js "_'+-.") c.
Definition local_last (c : N) : bool := is_alnum c || is_one_of (js "_+-") c.
(** The characters of a label after its first. *)
Definition label_char (c : N) : bool := is_alnum c || (c =? 0x2D).

Fixpoint split_on (sep : N) (s : jsstring) : list jsstring :=
  match s with
  | [] => [[]]
  | c :: r =>
    match split_on sep r with
    | [] => [[]]
    | w :: ws => if c =? sep then [] :: w :: ws else (c :: w) :: ws
    end
  end.

Fixpoint has_double_dot (s : jsstring) : bool :=
  match s with
  | c :: r =>
    match r with
    | d :: _ => ((c =? 0x2E) && (d =? 0x2E)) || has_double_dot r
    | [] => false
    end
  | [] => false
  end.

Definition local_part (s : jsstring) : bool :=
  match reverse s with
  | [] => false
  | l :: _ => local_last l && forallb local_char s
  end.

Definition label (s : jsstring) : bool :=
  match s with
  | [] => false
  | c :: r => is_alnum c && forallb label_char r
  end.

Definition tld (s : jsstring) : bool :=
  (2 <=? length s)%nat && forallb is_alpha s.

Definition domain (s : jsstring) : bool :=
  match reverse (split_on 0x2E s) with
  | t :: l :: ls => tld t && forallb label (l :: ls)
  | _ => false
  end.

Definition matches (s : jsstring) : bool :=
  negb (bool_decide (head s = Some 0x2E))
  && negb (has_double_dot s)
  && match split_on 0x40 s with
     | [l; d] => local_part l && domain d
     | _ => false
     end.

End ZodEmail.

(** The browser checks an [<input type="email">] before it lets a form be
    submitted: a value that is neither empty nor a valid e-mail address
    makes the input suffer from a type mismatch. The check is the
    browser's, and a parameter of the development as well; this is an
    instance, after the production of the HTML standard: one or more
    letters, digits and [.!#$%&'*+/=?^_`{|}~-], the [@], and one or more
    labels separated by dots, each of 1 to 63 letters, digits and [-] that
    starts and ends with a letter or a digit. *)
Module HtmlEmail.

Definition atext (c : N) : bool :=
  ZodEmail.is_alnum c || ZodEmail.is_one_of (js ".!#$%&'*+/=?^_`{|}~-") c.

Definition label (s : jsstring) : bool :=
  match s, reverse s with
  | c :: _, l :: _ =>
    ZodEmail.is_alnum c && ZodEmail.is_alnum l
    && forallb ZodEmail.label_char s && (length s <=? 63)%nat
  | _, _ => false
  end.

Definition valid (s : jsstring) : bool :=
  match ZodEmail.split_on 0x40 s with
  | [l; d] =>
    match l with
    | [] => false
    | _ :: _ => forallb atext l && forallb label (ZodEmail.split_on 0x2E d)
    end
  | _ => false
  end.

End HtmlEmail.

(** ** The request

    [JSON.stringify] on an object of strings: the members in key order, each
    string quoted by the rules of the language (QuoteJSONString). *)

Definition hex_digit (d : N) : N :=
  if d <? 10 then 0x30 + d else 0x61 + (d - 10).

(** [\uXXXX], four lower-case hexadecimal digits. *)
Definition unicode_escape (c : N) : jsstring :=
  js "\u" ++ [hex_digit (N.land (N.shiftr c 12) 0xF);
              hex_digit (N.land (N.shiftr c 8) 0xF);
              hex_digit (N.land (N.shiftr c 4) 0xF);
              hex_digit (N.land c 0xF)].

Definition is_high_surrogate (c : N) : bool := (0xD800 <=? c) && (c <=? 0xDBFF).
Definition is_low_surrogate (c : N) : bool := (0xDC00 <=? c) && (c <=? 0xDFFF).

Definition quote_unit (c : N) : jsstring :=
  if c =? 0x08 then js "\b"
  else if c =? 0x09 then js "\t"
  else if c =? 0x0A then js "\n"
  else if c =? 0x0C then js "\f"
  else if c =? 0x0D then js "\r"
  else if c =? 0x22 then [0x5C; 0x22]
  else if c =? 0x5C then js "\\"
  else if (c <? 0x20) || is_high_surrogate c || is_low_surrogate c
       then unicode_escape c
  else [c].

(** A high surrogate followed by a low one is a code point and is copied;
    a surrogate on its own is escaped. *)
Fixpoint quote_units (s : jsstring) : jsstring :=
  match s with
  | [] => []
  | c :: r =>
    match r with
    | d :: r' =>
      if is_high_surrogate c && is_low_surrogate d
      then c :: d :: quote_units r'
      else quote_unit c ++ quote_units r
    | [] => quote_unit c
    end
  end.

Definition QuoteJSONString (s : jsstring) : jsstring :=
  [0x22] ++ quote_units s ++ [0x22].

Definition JSON_member (key : string) (value : jsstring) : jsstring :=
  QuoteJSONString (js key) ++ js ":" ++ QuoteJSONString value.

Definition JSON_stringify (data : ContactFormData) : jsstring :=
  js "{" ++ JSON_member "name" (name data)
  ++ js "," ++ JSON_member "email" (email data)
  ++ js "," ++ JSON_member "message" (message data) ++ js "}".

(** The arguments of [fetch] (lines 34-40). *)
Record Request := mkRequest {
  url : jsstring;
  method : jsstring;
  headers : list (jsstring * jsstring);
  body : jsstring
}.

(** What the component reads of a response: [ok] is true for the statuses
    200 to 299. *)
Record Response := mkResponse { status : N }.

Definition ok (r : Response) : bool := (200 <=? status r) && (status r <=? 299).

Inductive JsError :=
| Error (msg : jsstring)
| TypeError (msg : jsstring).

(** How the promise returned by [fetch] settles. *)
Inductive Outcome :=
| Fulfilled (response : Response)
| Rejected (reason : JsError).

(** ** The component

    The state the component closes over: the form state kept by
    react-hook-form ([values], [errors], [isSubmitting], [isSubmitted]), the
    [useState] cell
    [submitStatus], and the environment the handler acts on (the clock and the
    pending [setTimeout] callbacks, the requests made, the console). Times are
    in milliseconds. *)

Record Component := mkComponent {
  values : ContactFormData;
  errors : gmap string jsstring;
  isSubmitting : bool;
  submitStatus : option SubmitStatus;
  clock : N;
  timers : list N;
    (* due times of the pending callbacks, each of them
       [() => setSubmitStatus(null)] *)
  network : list Request;
    (* the calls of [fetch], oldest first *)
  awaiting : nat;
    (* runs of [onSubmit] suspended at the [await] *)
  console : list (jsstring * JsError);
  uncaught : list JsError;
    (* exceptions that left [onSubmit] *)
  isSubmitted : bool
    (* [formState.isSubmitted] of react-hook-form: a run of
       [handleSubmit] has ended *)
}.

Definition empty_values : ContactFormData := mkData [] [] [].

(** The component as mounted. *)
Definition mounted : Component :=
  mkComponent empty_values ∅ false None 0 [] [] 0 [] [] false.

(** *** Statements with exceptions over the component state *)

Inductive Completion (A : Type) :=
| Normal (a : A)
| Throw (e : JsError).
Arguments Normal {A} a.
Arguments Throw {A} e.

Definition M (A : Type) : Type := Component → Completion A * Component.

Definition ret {A} (a : A) : M A := λ c, (Normal a, c).

Definition bind {A B} (m : M A) (k : A → M B) : M B :=
  λ c, match m c with
       | (Normal a, c1) => k a c1
       | (Throw e, c1) => (Throw e, c1)
       end.

Definition throw {A} (e : JsError) : M A := λ c, (Throw e, c).

#[global] Instance M_ret : MRet M := @ret.
#[global] Instance M_bind : MBind M := λ A B k m, bind m k.

(** [try { body } catch (e) { handler } finally { final }] *)
Definition try_catch_finally {A} (body : M A) (handler : JsError → M A)
    (final : M unit) : M A :=
  λ c,
    let '(r, c1) := match body c with
                    | (Normal a, c1) => (Normal a, c1)
                    | (Throw e, c1) => handler e c1
                    end in
    match final c1 with
    | (Normal _, c2) => (r, c2)
    | (Throw e, c2) => (Throw e, c2)
    end.

Definition get : M Component := λ c, (Normal c, c).

Definition modify (f : Component → Component) : M unit := λ c, (Normal (), f c).

Definition set_values (v : ContactFormData) (c : Component) : Component :=
  mkComponent v (errors c) (isSubmitting c) (submitStatus c) (clock c)
    (timers c) (network c) (awaiting c) (console c)
    (uncaught c) (isSubmitted c).
Definition set_errors (e : gmap string jsstring) (c : Component) : Component :=
  mkComponent (values c) e (isSubmitting c) (submitStatus c) (clock c)
    (timers c) (network c) (awaiting c) (console c)
    (uncaught c) (isSubmitted c).
Definition set_isSubmitting (b : bool) (c : Component) : Component :=
  mkComponent (values c) (errors c) b (submitStatus c) (clock c)
    (timers c) (network c) (awaiting c) (console c)
    (uncaught c) (isSubmitted c).
Definition set_submitStatus (s : option SubmitStatus) (c : Component) : Component :=
  mkComponent (values c) (errors c) (isSubmitting c) s (clock c)
    (timers c) (network c) (awaiting c) (console c)
    (uncaught c) (isSubmitted c).
Definition set_clock (t : N) (c : Component) : Component :=
  mkComponent (values c) (errors c) (isSubmitting c) (submitStatus c) t
    (timers c) (network c) (awaiting c) (console c)
    (uncaught c) (isSubmitted c).
Definition set_timers (ts : list N) (c : Component) : Component :=
  mkComponent (values c) (errors c) (isSubmitting c) (submitStatus c) (clock c)
    ts (network c) (awaiting c) (console c)
    (uncaught c) (isSubmitted c).
Definition set_network (n : list Request) (c : Component) : Component :=
  mkComponent (values c) (errors c) (isSubmitting c) (submitStatus c) (clock c)
    (timers c) n (awaiting c) (console c)
    (uncaught c) (isSubmitted c).
Definition set_awaiting (n : nat) (c : Component) : Component :=
  mkComponent (values c) (errors c) (isSubmitting c) (submitStatus c) (clock c)
    (timers c) (network c) n (console c)
    (uncaught c) (isSubmitted c).
Definition set_console (l : list (jsstring * JsError)) (c : Component) : Component :=
  mkComponent (values c) (errors c) (isSubmitting c) (submitStatus c) (clock c)
    (timers c) (network c) (awaiting c) l
    (uncaught c) (isSubmitted c).
Definition set_uncaught (l : list JsError) (c : Component) : Component :=
  mkComponent (values c) (errors c) (isSubmitting c) (submitStatus c) (clock c)
    (timers c) (network c) (awaiting c) (console c)
    l (isSubmitted c).
Definition set_isSubmitted (b : bool) (c : Component) : Component :=
  mkComponent (values c) (errors c) (isSubmitting c) (submitStatus c) (clock c)
    (timers c) (network c) (awaiting c) (console c)
    (uncaught c) b.

(** *** The operations [onSubmit] calls *)

Definition setSubmitStatus (s : option SubmitStatus) : M unit :=
  modify (set_submitStatus s).

(** [reset()] of react-hook-form, without default values: the fields are
    emptied and the errors forgotten. *)
Definition reset : M unit :=
  modify (λ c, set_errors ∅ (set_values empty_values c)).

(** [fetch(url, init)]: the request leaves; the caller is suspended on the
    promise. *)
Definition fetch (req : Request) : M unit :=
  modify (λ c, set_awaiting (S (awaiting c)) (set_network (network c ++ [req]) c)).

(** The [await] resumes with the response, or throws the reason of the
    rejection. *)
Definition resume (o : Outcome) : M Response :=
  λ c, match o with
       | Fulfilled r => (Normal r, set_awaiting (pred (awaiting c)) c)
       | Rejected e => (Throw e, set_awaiting (pred (awaiting c)) c)
       end.

Definition console_error (label : jsstring) (e : JsError) : M unit :=
  modify (λ c, set_console (console c ++ [(label, e)]) c).

(** [setTimeout(() => setSubmitStatus(null), delay)] *)
Definition setTimeout_clear (delay : N) : M unit :=
  modify (λ c, set_timers (timers c ++ [clock c + delay]) c).

Definition success_status : SubmitStatus :=
  mkStatus true (js "Mensagem enviada com sucesso! Obrigado.").
Definition failure_status : SubmitStatus :=
  mkStatus false (js "Ocorreu um erro ao enviar. Tente novamente.").

Definition send_email_request (data : ContactFormData) : Request :=
  mkRequest (js "/api/send-email") (js "POST")
    [(js "Content-Type", js "application/json")]
    (JSON_stringify data).

(** *** [onSubmit] (lines 30-63)

    The handler runs to the [await] of line 34 when it is called and from
    there when the promise settles. Nothing before the [await] throws. *)

Definition onSubmit_call (data : ContactFormData) : M unit :=
  setSubmitStatus None ;;
  fetch (send_email_request data).

Definition onSubmit_settled (o : Outcome) : M unit :=
  try_catch_finally
    (response ← resume o;
     (if negb (ok response)
      then throw (Error (js "Houve uma falha na resposta do servidor."))
      else ret ()) ;;
     setSubmitStatus (Some success_status) ;;
     reset)
    (λ error,
     console_error (js "Falha ao enviar o formulário:") error ;;
     setSubmitStatus (Some failure_status))
    (setTimeout_clear 5000).

(** *** The rendered form (lines 65-146)

    What the JSX derives from the state: the [disabled] attribute of the
    three inputs and of the button, the error line under each input, the
    label of the button, and the banner, present when [submitStatus] is not
    [null]. *)

Record View := mkView {
  name_disabled : bool;
  name_error : option jsstring;
  email_disabled : bool;
  email_error : option jsstring;
  message_disabled : bool;
  message_error : option jsstring;
  button_disabled : bool;
  button_label : jsstring;
  banner : list SubmitStatus
}.

Definition render (c : Component) : View :=
  mkView
    (isSubmitting c) (errors c !! "name")
    (isSubmitting c) (errors c !! "email")
    (isSubmitting c) (errors c !! "message")
    (isSubmitting c)
    (if isSubmitting c then js "Enviando..." else js "Enviar Mensagem")
    (match submitStatus c with Some s => [s] | None => [] end).

(** ** The event loop

    What can happen to the mounted component: the user edits a field, the
    user submits the form, the promise of a pending [fetch] settles, and
    time passes, which runs the [setTimeout] callbacks that fall due. *)

Inductive FieldName := NameField | EmailField | MessageField.

Inductive Event :=
| Input (f : FieldName) (v : jsstring)
| Submit
| Settle (o : Outcome).

Definition field_disabled (v : View) (f : FieldName) : bool :=
  match f with
  | NameField => name_disabled v
  | EmailField => email_disabled v
  | MessageField => message_disabled v
  end.

Definition field_key (f : FieldName) : string :=
  match f with
  | NameField => "name"
  | EmailField => "email"
  | MessageField => "message"
  end.

(** The email input (line 99, [type="email"]) suffers from a type mismatch:
    its value is not empty and not a valid e-mail address. The other two
    controls carry no constraint. *)
Definition type_mismatch (valid : jsstring → bool) (value : jsstring) : bool :=
  match value with
  | [] => false
  | _ :: _ => negb (valid value)
  end.

Definition with_field (f : FieldName) (v : jsstring) (d : ContactFormData)
    : ContactFormData :=
  match f with
  | NameField => mkData v (email d) (message d)
  | EmailField => mkData (name d) v (message d)
  | MessageField => mkData (name d) (email d) v
  end.

(** Time passes: every callback due by the new time has run, and each of
    them is [setSubmitStatus(null)]. *)
Definition advance (d : N) (c : Component) : Component :=
  let t := clock c + d in
  let due := filter (λ x, x ≤ t) (timers c) in
  let c1 := match due with [] => c | _ :: _ => set_submitStatus None c end in
  set_clock t (set_timers (filter (λ x, t < x) (timers c)) c1).

Section Form.

Variable email_pattern : jsstring → bool.
Variable valid_email_address : jsstring → bool.

(** [handleSubmit(onSubmit)] of react-hook-form (line 77): the form is
    marked as submitting, the resolver runs on the field values, and
    [onSubmit] is called with the parsed data only when it reports no
    error; otherwise the errors are stored and the submission ends. When
    it ends the form is marked as submitted. *)
Definition handleSubmit_call : M unit :=
  modify (set_isSubmitting true) ;;
  c ← get;
  match zodResolver email_pattern (values c) with
  | inl errs =>
    modify (set_errors errs) ;;
    modify (set_isSubmitted true) ;;
    modify (set_isSubmitting false)
  | inr data => modify (set_errors ∅) ;; onSubmit_call data
  end.

(** When the promise of [onSubmit] settles the submission ends; an
    exception of [onSubmit] would be thrown on. *)
Definition handleSubmit_settled (o : Outcome) (c : Component) : Component :=
  match onSubmit_settled o c with
  | (Normal _, c1) => set_isSubmitted true (set_isSubmitting false c1)
  | (Throw e, c1) =>
    set_uncaught (uncaught c1 ++ [e])
      (set_isSubmitted true (set_isSubmitting false c1))
  end.

(** After a submission react-hook-form validates again on every change
    (its default [reValidateMode]): the resolver runs on the new values and
    the error of the changed field is set or removed. *)
Definition revalidate (f : FieldName) (c : Component) : Component :=
  let found :=
    match zodResolver email_pattern (values c) with
    | inl errs => errs !! field_key f
    | inr _ => None
    end in
  set_errors
    match found with
    | Some m => <[field_key f := m]> (errors c)
    | None => delete (field_key f) (errors c)
    end c.

(** A disabled control takes no input and a disabled submit button
    submits nothing; the form has no [noValidate], so the browser does not
    fire the submit event while the email input suffers from a type
    mismatch, and [handleSubmit] does not run; a promise settles only if
    one is pending. *)
Definition dispatch (e : Event) (c : Component) : Component :=
  match e with
  | Input f v =>
    if field_disabled (render c) f then c
    else
      let c1 := set_values (with_field f v (values c)) c in
      if isSubmitted c then revalidate f c1 else c1
  | Submit =>
    if button_disabled (render c) then c
    else if type_mismatch valid_email_address (email (values c)) then c
    else (handleSubmit_call c).2
  | Settle o =>
    match awaiting c with
    | O => c
    | S _ => handleSubmit_settled o c
    end
  end.

(** An event [e] that happens [d] milliseconds after the previous one. *)
Definition step (c : Component) (de : N * Event) : Component :=
  dispatch de.2 (advance de.1 c).

Definition run (tr : list (N * Event)) (c : Component) : Component :=
  foldl step c tr.

End Form.

Definition duration (tr : list (N * Event)) : N :=
  foldr (λ de acc, de.1 + acc) 0 tr.

Definition is_submit (e : Event) : bool :=
  match e with Submit => true | _ => false end.

(** The request has failed: the promise is rejected, or fulfilled with a
    response whose status is not ok. *)
Definition request_failed (o : Outcome) : bool :=
  match o with
  | Fulfilled r => negb (ok r)
  | Rejected _ => true
  end.

(** The error the [catch] receives. *)
Definition caught (o : Outcome) : JsError :=
  match o with
  | Rejected e => e
  | Fulfilled _ => Error (js "Houve uma falha na resposta do servidor.")
  end.

(** ** Predicates on states *)

(** What every reachable state satisfies: a run of [onSubmit] is
    suspended exactly while the form is submitting, and then there is one
    and no status; no exception has left [onSubmit]. *)
Definition consistent (c : Component) : Prop :=
  awaiting c = (if isSubmitting c then 1 else 0)%nat
  ∧ (if isSubmitting c then submitStatus c = None else True)
  ∧ uncaught c = [].

(** One callback pending, no request in flight, a status shown. *)
Definition showing (t : N) (s : SubmitStatus) (c : Component) : Prop :=
  isSubmitting c = false ∧ awaiting c = 0%nat ∧ timers c = [t]
  ∧ submitStatus c = Some s.

(** The status is absent or one of the two the handler sets; while the
    form is submitting no error is stored. *)
Definition tidy (c : Component) : Prop :=
  (submitStatus c = None ∨ submitStatus c = Some success_status
   ∨ submitStatus c = Some failure_status)
  ∧ (if isSubmitting c then errors c = ∅ else True).

(** Every pending callback is due later than now and at most 5000 ms from
    now; a status that is shown has a callback pending. *)
Definition scheduled (c : Component) : Prop :=
  Forall (λ t, clock c < t ≤ clock c + 5000) (timers c)
  ∧ (submitStatus c = None ∨ timers c ≠ []).

(** The message the schema gives for one field of the data, if its rule
    fails. *)
Definition field_rule (p : jsstring → bool) (f : FieldName)
    (d : ContactFormData) : option jsstring :=
  match f with
  | NameField =>
    if bool_decide (js_length (name d) < 3)%nat then Some name_message else None
  | EmailField => if p (email d) then None else Some email_message
  | MessageField =>
    if bool_decide (js_length (message d) < 10)%nat
    then Some message_message else None
  end.

(** ** More of the rendered form

    The class of the banner (line 139) and the icon of the button, drawn
    only when the form is not submitting (line 129). *)

Definition banner_className (s : SubmitStatus) : jsstring :=
  js "mt-6 text-center p-3 rounded-lg " ++
  (if success s then js "bg-green-900/50 text-green-300"
   else js "bg-red-900/50 text-red-300").

Definition send_icon (c : Component) : bool := negb (isSubmitting c).

Definition is_settle (e : Event) : bool :=
  match e with Settle _ => true | _ => false end.

(** ** Reading a body back

    A reader for the bodies the component sends, used to show that the
    encoding loses nothing: the text of a JSON string up to its closing
    quote, with the escapes [QuoteJSONString] writes, and the object with
    the three keys in the order of the schema. *)

Definition unhex (h : N) : option N :=
  if (0x30 <=? h) && (h <=? 0x39) then Some (h - 0x30)
  else if (0x61 <=? h) && (h <=? 0x66) then Some (h - 0x61 + 10)
  else None.

Definition unescape (e : N) : option N :=
  if e =? 0x62 then Some 0x08
  else if e =? 0x74 then Some 0x09
  else if e =? 0x6E then Some 0x0A
  else if e =? 0x66 then Some 0x0C
  else if e =? 0x72 then Some 0x0D
  else if e =? 0x22 then Some 0x22
  else if e =? 0x5C then Some 0x5C
  else None.

Fixpoint read_string (s : jsstring) : option (jsstring * jsstring) :=
  match s with
  | [] => None
  | c :: r =>
    if c =? 0x22 then Some ([], r)
    else if c =? 0x5C then
      match r with
      | e :: r1 =>
        if e =? 0x75 then
          match r1 with
          | h1 :: h2 :: h3 :: h4 :: r2 =>
            match unhex h1, unhex h2, unhex h3, unhex h4, read_string r2 with
            | Some a, Some b, Some c', Some d, Some (t, rest) =>
              Some ((a * 4096 + b * 256 + c' * 16 + d) :: t, rest)
            | _, _, _, _, _ => None
            end
          | _ => None
          end
        else
          match unescape e, read_string r1 with
          | Some v, Some (t, rest) => Some (v :: t, rest)
          | _, _ => None
          end
      | [] => None
      end
    else
      match read_string r with
      | Some (t, rest) => Some (c :: t, rest)
      | None => None
      end
  end.

(** A code unit put in front of what was read. *)
Definition cons_read (c : N) (r : option (jsstring * jsstring))
    : option (jsstring * jsstring) :=
  match r with
  | Some (t, rest) => Some (c :: t, rest)
  | None => None
  end.

Fixpoint strip_prefix (pre s : jsstring) : option jsstring :=
  match pre, s with
  | [], _ => Some s
  | a :: pre', b :: s' => if a =? b then strip_prefix pre' s' else None
  | _ :: _, [] => None
  end.

Definition read_body (s : jsstring) : option ContactFormData :=
  s1 ← strip_prefix (js "{" ++ QuoteJSONString (js "name") ++ js ":" ++ [0x22]) s;
  '(n, s2) ← read_string s1;
  s3 ← strip_prefix (js "," ++ QuoteJSONString (js "email") ++ js ":" ++ [0x22]) s2;
  '(e, s4) ← read_string s3;
  s5 ← strip_prefix (js "," ++ QuoteJSONString (js "message") ++ js ":" ++ [0x22]) s4;
  '(m, s6) ← read_string s5;
  match s6 with
  | [0x7D] => Some (mkData n e m)
  | _ => None
  end.

(** ** Sample inputs *)

Definition ana : ContactFormData :=
  mkData (js "Ana Silva") (js "ana@example.com")
    (js "Olá, gostaria de saber mais.").

Definition quoted (s : string) : jsstring := [0x22] ++ js s ++ [0x22].

Definition ana_body : jsstring :=
  js "{" ++ quoted "name" ++ js ":" ++ quoted "Ana Silva"
  ++ js "," ++ quoted "email" ++ js ":" ++ quoted "ana@example.com"
  ++ js "," ++ quoted "message" ++ js ":" ++ quoted "Olá, gostaria de saber mais."
  ++ js "}".

Definition fill (d : ContactFormData) : list (N * Event) :=
  [(0, Input NameField (name d)); (0, Input EmailField (email d));
   (0, Input MessageField (message d))].

(** The form filled with [ana]. *)
Definition ana_filled : Component := run ZodEmail.matches HtmlEmail.valid (fill ana) mounted.

(** The form filled with [ana] and submitted: the request is in flight. *)
Definition ana_submitted : Component :=
  run ZodEmail.matches HtmlEmail.valid (fill ana ++ [(10, Submit)]) mounted.

(** Two attempts one second apart, both failing: the form is filled and
    submitted at 10 ms, the server answers 500 at 100 ms, the user submits
    again at 1000 ms and the network fails at 1100 ms. *)
Definition two_attempts : list (N * Event) :=
  fill ana ++
  [(10, Submit); (90, Settle (Fulfilled (mkResponse 500)));
   (900, Submit); (100, Settle (Rejected (TypeError (js "Failed to fetch"))))].

(** * Properties *)

(** ** Validation *)

Lemma string_min_spec n msg v :
  string_min n msg v = if bool_decide (js_length v < n)%nat then [msg] else [].
Proof.
  unfold string_min. destruct (Nat.ltb_spec (js_length v) n);
    [rewrite bool_decide_eq_true_2 | rewrite bool_decide_eq_false_2]; auto; lia.
Qed.

Lemma zodResolver_cases p data :
  zodResolver p data =
    match bool_decide (js_length (name data) < 3)%nat, p (email data),
          bool_decide (js_length (message data) < 10)%nat with
    | false, true, false => inr data
    | n, e, m =>
      inl ((if n then <["name" := name_message]> else id)
             ((if e then id else <["email" := email_message]>)
                ((if m then <["message" := message_message]> else id) ∅)))
    end.
Proof.
  unfold zodResolver, contactFormSchema, contactFormSchema_issues, string_email.
  rewrite !string_min_spec.
  destruct data as [n e m]; simpl.
  destruct (bool_decide _), (p e), (bool_decide _); reflexivity.
Qed.

(** C1. Validation succeeds exactly when the name has at least 3 code units,
    the email matches the pattern and the message has at least 10 code
    units. When it fails, the errors hold the name-length message exactly
    when the name is shorter than 3, the email-format message exactly when
    the email does not match, and the message-length message exactly when
    the message is shorter than 10. *)
Theorem validation_rules (p : jsstring → bool) (data : ContactFormData) :
  (zodResolver p data = inr data ↔
     (3 ≤ js_length (name data))%nat ∧ p (email data) = true
     ∧ (10 ≤ js_length (message data))%nat)
  ∧ match zodResolver p data with
    | inr parsed => parsed = data
    | inl errs =>
      errs !! "name" =
        (if bool_decide (js_length (name data) < 3)%nat
         then Some name_message else None)
      ∧ errs !! "email" =
        (if p (email data) then None else Some email_message)
      ∧ errs !! "message" =
        (if bool_decide (js_length (message data) < 10)%nat
         then Some message_message else None)
    end.
Proof.
  rewrite zodResolver_cases.
  destruct (bool_decide (js_length (name data) < 3)%nat) eqn:Hn;
    destruct (p (email data)) eqn:He;
    destruct (bool_decide (js_length (message data) < 10)%nat) eqn:Hm;
    try apply bool_decide_eq_true_1 in Hn; try apply bool_decide_eq_false_1 in Hn;
    try apply bool_decide_eq_true_1 in Hm; try apply bool_decide_eq_false_1 in Hm;
    (split; [split; [intros [=] | intros (?&?&?); try lia; try discriminate]
            | simpl; try (repeat split; reflexivity)]);
    try reflexivity.
  repeat split; [lia | lia].
Qed.

(** The rules on sample inputs, with zod's pattern. [Zé] has two code
    units (and three bytes in UTF-8). *)
Example js_length_ze : js_length (js "Zé") = 2%nat.
Proof. reflexivity. Qed.

Example validation_accepts_ana : zodResolver ZodEmail.matches ana = inr ana.
Proof. vm_compute. reflexivity. Qed.

Example validation_rejects_all_three :
  match zodResolver ZodEmail.matches (mkData (js "Zé") (js "ze@local") (js "Olá!")) with
  | inr _ => False
  | inl errs =>
    errs !! "name" = Some name_message
    ∧ errs !! "email" = Some email_message
    ∧ errs !! "message" = Some message_message
  end.
Proof. vm_compute. repeat split; reflexivity. Qed.

Example validation_rejects_email_only :
  match zodResolver ZodEmail.matches
          (mkData (js "Ana Silva") (js "ana..silva@example.com") (message ana)) with
  | inr _ => False
  | inl errs =>
    errs !! "name" = None
    ∧ errs !! "email" = Some email_message
    ∧ errs !! "message" = None
  end.
Proof. vm_compute. repeat split; reflexivity. Qed.

(** ** The body of the request *)

Example JSON_stringify_ana : JSON_stringify ana = ana_body.
Proof. vm_compute. reflexivity. Qed.

(** A quote, a backslash and a line feed are escaped, a lone surrogate is
    written as an escape, a surrogate pair is copied. *)
Example QuoteJSONString_escapes :
  QuoteJSONString [0x41; 0x22; 0x5C; 0x0A; 0xD83D; 0xDE00; 0xDE00]
  = [0x22; 0x41; 0x5C; 0x22; 0x5C; 0x5C] ++ js "\n" ++ [0xD83D; 0xDE00]
    ++ js "\ude00" ++ [0x22].
Proof. vm_compute. reflexivity. Qed.

(** ** The handler after the request *)

Lemma ok_spec r : ok r = true ↔ 200 ≤ status r ≤ 299.
Proof. unfold ok. rewrite andb_true_iff, !N.leb_le. tauto. Qed.

Ltac run_handler :=
  unfold onSubmit_settled, onSubmit_call, try_catch_finally, mbind, M_bind,
    bind, throw, ret, resume, setSubmitStatus, reset, fetch, console_error,
    setTimeout_clear, modify, get; simpl.

Lemma onSubmit_settled_ok c r :
  ok r = true →
  onSubmit_settled (Fulfilled r) c =
    (Normal (),
     mkComponent empty_values ∅ (isSubmitting c) (Some success_status)
       (clock c) (timers c ++ [clock c + 5000]) (network c)
       (pred (awaiting c)) (console c) (uncaught c) (isSubmitted c)).
Proof. intros H. run_handler. rewrite H. reflexivity. Qed.

Lemma onSubmit_settled_failed c o :
  request_failed o = true →
  onSubmit_settled o c =
    (Normal (),
     mkComponent (values c) (errors c) (isSubmitting c) (Some failure_status)
       (clock c) (timers c ++ [clock c + 5000]) (network c)
       (pred (awaiting c))
       (console c ++ [(js "Falha ao enviar o formulário:", caught o)])
       (uncaught c) (isSubmitted c)).
Proof.
  destruct o as [r|e]; simpl; intros H; run_handler; [|reflexivity].
  apply negb_true_iff in H. rewrite H. reflexivity.
Qed.

(** C2. When the request completes with a status from 200 to 299, the
    handler ends normally with every field empty and [submitStatus] set to
    the success variant with the success message. *)
Theorem ok_clears_fields_and_reports_success (c : Component) (r : Response) :
  200 ≤ status r ≤ 299 →
  ∃ c', onSubmit_settled (Fulfilled r) c = (Normal (), c')
    ∧ values c' = mkData [] [] []
    ∧ submitStatus c' =
        Some (mkStatus true (js "Mensagem enviada com sucesso! Obrigado.")).
Proof.
  intros H. apply ok_spec in H. eexists. split.
  - apply onSubmit_settled_ok, H.
  - split; reflexivity.
Qed.

Lemma ok_clears_fields_and_reports_success_witness :
  200 ≤ status (mkResponse 200) ≤ 299
  ∧ ∃ c', onSubmit_settled (Fulfilled (mkResponse 200))
            ana_submitted
          = (Normal (), c')
    ∧ values c' = mkData [] [] []
    ∧ submitStatus c' =
        Some (mkStatus true (js "Mensagem enviada com sucesso! Obrigado.")).
Proof.
  split; [simpl; lia |].
  apply (ok_clears_fields_and_reports_success ana_submitted (mkResponse 200)).
  simpl. lia.
Defined.

(** C3. When the request throws, or completes with a status that is not
    ok, the handler ends normally with [submitStatus] set to the one
    failure variant, the same for both causes, and with the field values
    as they were. *)
Theorem failure_keeps_fields_and_reports_failure (c : Component) (o : Outcome) :
  request_failed o = true →
  ∃ c', onSubmit_settled o c = (Normal (), c')
    ∧ values c' = values c
    ∧ submitStatus c' =
        Some (mkStatus false (js "Ocorreu um erro ao enviar. Tente novamente.")).
Proof.
  intros H. eexists. split.
  - apply onSubmit_settled_failed, H.
  - split; reflexivity.
Qed.

Lemma failure_keeps_fields_and_reports_failure_witness :
  request_failed (Fulfilled (mkResponse 500)) = true
  ∧ ∃ c', onSubmit_settled (Fulfilled (mkResponse 500)) ana_submitted
          = (Normal (), c')
      ∧ values c' = values ana_submitted
      ∧ submitStatus c' =
          Some (mkStatus false (js "Ocorreu um erro ao enviar. Tente novamente.")).
Proof.
  split; [reflexivity |].
  exact (failure_keeps_fields_and_reports_failure ana_submitted
           (Fulfilled (mkResponse 500)) eq_refl).
Defined.

(** C10. The status and the field contents the handler leaves are a
    function of the data and of the outcome of the request alone: two runs
    on the same data and outcome, from components holding that data, agree
    on both; the status is the success variant with its fixed message when
    the request succeeded and the failure variant with its fixed message
    otherwise. *)
Theorem handler_deterministic (data : ContactFormData) (o : Outcome)
    (c1 c2 : Component) :
  values c1 = data → values c2 = data →
  let r1 := (onSubmit_settled o (onSubmit_call data c1).2).2 in
  let r2 := (onSubmit_settled o (onSubmit_call data c2).2).2 in
  submitStatus r1 = submitStatus r2
  ∧ values r1 = values r2
  ∧ submitStatus r1 =
      Some (if request_failed o
            then mkStatus false (js "Ocorreu um erro ao enviar. Tente novamente.")
            else mkStatus true (js "Mensagem enviada com sucesso! Obrigado."))
  ∧ values r1 = (if request_failed o then data else mkData [] [] []).
Proof.
  intros H1 H2 r1 r2. subst r1 r2.
  destruct (request_failed o) eqn:H.
  - rewrite !(onSubmit_settled_failed _ _ H). simpl.
    rewrite H1, H2. repeat split; reflexivity.
  - destruct o as [r|e]; [|discriminate].
    apply negb_false_iff in H.
    rewrite !(onSubmit_settled_ok _ _ H). simpl. repeat split; reflexivity.
Qed.

Lemma handler_deterministic_witness :
  let c1 := set_values ana mounted in
  let c2 := set_clock 7000 (set_values ana mounted) in
  let o := Fulfilled (mkResponse 503) in
  values c1 = ana ∧ values c2 = ana
  ∧ submitStatus (onSubmit_settled o (onSubmit_call ana c1).2).2
    = submitStatus (onSubmit_settled o (onSubmit_call ana c2).2).2.
Proof.
  intros c1 c2 o.
  split; [reflexivity | split; [reflexivity |]].
  exact (proj1 (handler_deterministic ana o c1 c2 eq_refl eq_refl)).
Defined.

(** ** The event loop *)

Lemma advance_eq d c :
  advance d c =
    mkComponent (values c) (errors c) (isSubmitting c)
      (match filter (λ x, x ≤ clock c + d) (timers c) with
       | [] => submitStatus c
       | _ :: _ => None
       end)
      (clock c + d) (filter (λ x, clock c + d < x) (timers c))
      (network c) (awaiting c) (console c) (uncaught c) (isSubmitted c).
Proof.
  unfold advance.
  destruct (filter (λ x, x ≤ clock c + d) (timers c)); reflexivity.
Qed.

Section Loop.

Variable p : jsstring → bool.
Variable b : jsstring → bool.

Lemma handleSubmit_call_eq c :
  handleSubmit_call p c =
    (Normal (),
     match zodResolver p (values c) with
     | inl errs =>
       mkComponent (values c) errs false (submitStatus c) (clock c)
         (timers c) (network c) (awaiting c) (console c) (uncaught c) true
     | inr data =>
       mkComponent (values c) ∅ true None (clock c) (timers c)
         (network c ++ [send_email_request data]) (S (awaiting c))
         (console c) (uncaught c) (isSubmitted c)
     end).
Proof.
  unfold handleSubmit_call. run_handler.
  destruct (zodResolver p (values c)); reflexivity.
Qed.

Lemma handleSubmit_settled_eq o c :
  handleSubmit_settled o c =
    mkComponent
      (if request_failed o then values c else empty_values)
      (if request_failed o then errors c else ∅)
      false
      (Some (if request_failed o then failure_status else success_status))
      (clock c) (timers c ++ [clock c + 5000]) (network c)
      (pred (awaiting c))
      (if request_failed o
       then console c ++ [(js "Falha ao enviar o formulário:", caught o)]
       else console c)
      (uncaught c) true.
Proof.
  unfold handleSubmit_settled. destruct (request_failed o) eqn:H.
  - rewrite (onSubmit_settled_failed _ _ H). reflexivity.
  - destruct o as [r|e]; [|discriminate].
    apply negb_false_iff in H.
    rewrite (onSubmit_settled_ok _ _ H). reflexivity.
Qed.

Lemma field_disabled_render c f : field_disabled (render c) f = isSubmitting c.
Proof. destruct f; reflexivity. Qed.

Lemma dispatch_Input f v c :
  dispatch p b (Input f v) c =
    if isSubmitting c then c
    else
      mkComponent (with_field f v (values c))
        (if isSubmitted c
         then errors (revalidate p f (set_values (with_field f v (values c)) c))
         else errors c)
        (isSubmitting c) (submitStatus c) (clock c) (timers c) (network c)
        (awaiting c) (console c) (uncaught c) (isSubmitted c).
Proof.
  simpl. rewrite field_disabled_render.
  destruct c as [vs es ig st cl ts nw aw co un sd]. simpl.
  destruct ig; [reflexivity |]. destruct sd; reflexivity.
Qed.

Lemma dispatch_Submit c :
  dispatch p b Submit c =
    if isSubmitting c then c
    else if type_mismatch b (email (values c)) then c
    else match zodResolver p (values c) with
         | inl errs =>
           mkComponent (values c) errs false (submitStatus c) (clock c)
             (timers c) (network c) (awaiting c) (console c) (uncaught c)
             true
         | inr data =>
           mkComponent (values c) ∅ true None (clock c) (timers c)
             (network c ++ [send_email_request data]) (S (awaiting c))
             (console c) (uncaught c) (isSubmitted c)
         end.
Proof. simpl. rewrite handleSubmit_call_eq. reflexivity. Qed.

Lemma dispatch_Settle o c :
  dispatch p b (Settle o) c =
    match awaiting c with
    | O => c
    | S _ => handleSubmit_settled o c
    end.
Proof. reflexivity. Qed.

Lemma run_app tr1 tr2 c : run p b (tr1 ++ tr2) c = run p b tr2 (run p b tr1 c).
Proof. apply foldl_app. Qed.

Lemma run_cons de tr c : run p b (de :: tr) c = run p b tr (step p b c de).
Proof. reflexivity. Qed.

Lemma consistent_mounted : consistent mounted.
Proof. repeat split. Qed.

Lemma consistent_advance d c : consistent c → consistent (advance d c).
Proof.
  unfold consistent. rewrite advance_eq. simpl. intros (Ha & Hs & Hu).
  repeat split; auto.
  destruct (isSubmitting c); auto. rewrite Hs. destruct (filter _ _); auto.
Qed.

Lemma consistent_dispatch e c : consistent c → consistent (dispatch p b e c).
Proof.
  unfold consistent. intros (Ha & Hs & Hu).
  destruct e as [f v| |o].
  - rewrite dispatch_Input.
    destruct (isSubmitting c) eqn:E; simpl; rewrite ?E; auto.
  - rewrite dispatch_Submit.
    destruct (isSubmitting c) eqn:E; simpl; rewrite ?E; auto.
    destruct (type_mismatch b (email (values c))); simpl; rewrite ?E; auto.
    destruct (zodResolver p (values c)); simpl; rewrite ?Ha; auto.
  - rewrite dispatch_Settle.
    destruct (awaiting c) eqn:E; [rewrite E; auto |].
    rewrite handleSubmit_settled_eq. simpl. rewrite E.
    destruct (isSubmitting c); [|discriminate].
    injection Ha as ->. auto.
Qed.

Lemma consistent_run tr c : consistent c → consistent (run p b tr c).
Proof.
  revert c. induction tr as [|de tr IH]; intros c H; [exact H |].
  rewrite run_cons. apply IH, consistent_dispatch, consistent_advance, H.
Qed.

Lemma reachable_consistent tr : consistent (run p b tr mounted).
Proof. apply consistent_run, consistent_mounted. Qed.



End Loop.

(** C9. Whatever the outcome of the request, the handler ends normally (no
    exception leaves it), with [submitStatus] set to the success or to the
    failure variant, and with the clearing callback scheduled 5000 ms
    ahead; in no reachable state has an exception left the handler. *)
Theorem handler_total_over_outcomes :
  (∀ (c : Component) (o : Outcome),
     ∃ c', onSubmit_settled o c = (Normal (), c')
       ∧ submitStatus c' =
           Some (if request_failed o then failure_status else success_status)
       ∧ timers c' = timers c ++ [clock c + 5000])
  ∧ (∀ (p b : jsstring → bool) (tr : list (N * Event)),
       uncaught (run p b tr mounted) = []).
Proof.
  split.
  - intros c o. destruct (request_failed o) eqn:H.
    + eexists. split; [apply onSubmit_settled_failed, H | split; reflexivity].
    + destruct o as [r|e]; [|discriminate].
      apply negb_false_iff in H.
      eexists. split; [apply onSubmit_settled_ok, H | split; reflexivity].
  - intros p b tr. apply (reachable_consistent p b tr).
Qed.



(** C6, as stated, fails: a submit attempt that validation blocks does not
    clear the prior status. After a failed attempt the failure status is
    shown; the user shortens the name to [Zé] and submits again; the
    resolver refuses the name, no request leaves, and the status is still
    shown. *)
Lemma blocked_attempt_keeps_status :
  (submitStatus
     (run ZodEmail.matches HtmlEmail.valid
        (fill ana ++ [(10, Submit); (90, Settle (Fulfilled (mkResponse 500)));
                      (100, Input NameField (js "Zé"))]) mounted)
   = Some failure_status
   ∧ submitStatus
       (run ZodEmail.matches HtmlEmail.valid
          (fill ana ++ [(10, Submit); (90, Settle (Fulfilled (mkResponse 500)));
                        (100, Input NameField (js "Zé")); (100, Submit)]) mounted)
     = Some failure_status
   ∧ length (network
       (run ZodEmail.matches HtmlEmail.valid
          (fill ana ++ [(10, Submit); (90, Settle (Fulfilled (mkResponse 500)));
                        (100, Input NameField (js "Zé")); (100, Submit)]) mounted))
     = 1%nat)
  ∧ ¬ (∀ tr : list (N * Event),
         submitStatus
           (run ZodEmail.matches HtmlEmail.valid (tr ++ [(100, Submit)]) mounted)
         = None).
Proof.
  split.
  - repeat split; vm_compute; reflexivity.
  - intros H.
    specialize (H (fill ana ++ [(10, Submit); (90, Settle (Fulfilled (mkResponse 500)));
                                (100, Input NameField (js "Zé"))])).
    assert (submitStatus
              (run ZodEmail.matches HtmlEmail.valid
                 ((fill ana ++ [(10, Submit); (90, Settle (Fulfilled (mkResponse 500)));
                                (100, Input NameField (js "Zé"))])
                  ++ [(100, Submit)]) mounted)
            = Some failure_status) as E by (vm_compute; reflexivity).
    rewrite E in H. discriminate H.
Qed.

(** C6, amended. In every reachable state the form shows at most one status
    banner, and while a request is pending there is no status at all: the
    status of an earlier attempt is cleared when [onSubmit] is called,
    before the request leaves and so before its outcome is known. A submit
    attempt clears the status exactly when it reaches [onSubmit], that is
    when the form is not submitting, the browser's check of the email input
    lets it through and the resolver accepts the values; an attempt that
    is blocked leaves the status as it was. *)
Theorem one_status_cleared_before_outcome :
  (∀ (p b : jsstring → bool) (tr : list (N * Event)),
     (length (banner (render (run p b tr mounted))) ≤ 1)%nat
     ∧ (awaiting (run p b tr mounted) = 0%nat
        ∨ submitStatus (run p b tr mounted) = None))
  ∧ (∀ (data : ContactFormData) (c : Component),
       ∃ c', onSubmit_call data c = (Normal (), c')
         ∧ submitStatus c' = None
         ∧ awaiting c' = S (awaiting c))
  ∧ (∀ (p b : jsstring → bool) (c : Component),
       submitStatus (dispatch p b Submit c) =
         if negb (isSubmitting c)
            && negb (type_mismatch b (email (values c)))
            && match zodResolver p (values c) with
               | inr _ => true
               | inl _ => false
               end
         then None
         else submitStatus c).
Proof.
  split; [|split].
  - intros p b tr. split.
    + unfold render. simpl. destruct (submitStatus _); simpl; lia.
    + destruct (reachable_consistent p b tr) as (Ha & Hs & _).
      destruct (isSubmitting _); auto.
  - intros data c. eexists. split; [reflexivity | split; reflexivity].
  - intros p b c. rewrite dispatch_Submit.
    destruct (isSubmitting c); [reflexivity |].
    destruct (type_mismatch b (email (values c))); [reflexivity |].
    destruct (zodResolver p (values c)); reflexivity.
Qed.

(** C7, as stated, fails: with the name [Zé], the email [abc] and the
    message [Olá!] every rule fails, but the browser finds the email input
    in type mismatch and does not fire the submit event: [handleSubmit]
    does not run and no field-level error is produced. *)
Lemma browser_refusal_produces_no_errors :
  (js_length (name (values
     (run ZodEmail.matches HtmlEmail.valid
        (fill (mkData (js "Zé") (js "abc") (js "Olá!"))) mounted))) < 3)%nat
  ∧ dispatch ZodEmail.matches HtmlEmail.valid Submit
      (run ZodEmail.matches HtmlEmail.valid
         (fill (mkData (js "Zé") (js "abc") (js "Olá!"))) mounted)
    = run ZodEmail.matches HtmlEmail.valid
        (fill (mkData (js "Zé") (js "abc") (js "Olá!"))) mounted
  ∧ errors
      (dispatch ZodEmail.matches HtmlEmail.valid Submit
         (run ZodEmail.matches HtmlEmail.valid
            (fill (mkData (js "Zé") (js "abc") (js "Olá!"))) mounted))
    = ∅.
Proof.
  split; [vm_compute; lia | split; vm_compute; reflexivity].
Qed.

(** C7, amended. When a rule fails on the values of the form, a submit
    attempt makes no request, leaves [submitStatus] as it was, schedules
    nothing and leaves nothing pending. When the form is not submitting
    and the browser's check of the email input lets the attempt through,
    [handleSubmit] stores the errors of the resolver, which are not empty,
    and does not call [onSubmit]; when the browser finds the email input in
    type mismatch (or the form is submitting) the attempt changes nothing,
    the errors included. *)
Theorem invalid_input_blocks_submission (p b : jsstring → bool) (c : Component) :
  (js_length (name (values c)) < 3)%nat ∨ p (email (values c)) = false
    ∨ (js_length (message (values c)) < 10)%nat →
  ∃ errs, zodResolver p (values c) = inl errs
    ∧ errs ≠ ∅
    ∧ handleSubmit_call p c
      = (Normal (),
         set_isSubmitting false (set_isSubmitted true (set_errors errs c)))
    ∧ dispatch p b Submit c
      = (if isSubmitting c || type_mismatch b (email (values c)) then c
         else set_isSubmitting false (set_isSubmitted true (set_errors errs c)))
    ∧ network (dispatch p b Submit c) = network c
    ∧ submitStatus (dispatch p b Submit c) = submitStatus c
    ∧ timers (dispatch p b Submit c) = timers c
    ∧ awaiting (dispatch p b Submit c) = awaiting c.
Proof.
  intros H.
  assert (∃ errs, zodResolver p (values c) = inl errs ∧ errs ≠ ∅) as (errs & He & Hne).
  { rewrite zodResolver_cases.
    destruct (bool_decide (js_length (name (values c)) < 3)%nat) eqn:Hn;
      destruct (p (email (values c))) eqn:Hp;
      destruct (bool_decide (js_length (message (values c)) < 10)%nat) eqn:Hm;
      try (eexists; split; [reflexivity | simpl; apply insert_non_empty]).
    apply bool_decide_eq_false_1 in Hn, Hm.
    destruct H as [H | [H | H]]; [lia | discriminate | lia]. }
  exists errs. rewrite dispatch_Submit, handleSubmit_call_eq, He.
  split; [reflexivity | split; [exact Hne | split; [reflexivity |]]].
  destruct (isSubmitting c); [repeat split |].
  destruct (type_mismatch b (email (values c))); repeat split.
Qed.

Lemma invalid_input_blocks_submission_witness :
  ((js_length (name (values
      (run ZodEmail.matches HtmlEmail.valid
         (fill (mkData (js "Zé") (email ana) (message ana))) mounted))) < 3)%nat
   ∨ ZodEmail.matches (email (values
      (run ZodEmail.matches HtmlEmail.valid
         (fill (mkData (js "Zé") (email ana) (message ana))) mounted))) = false
   ∨ (js_length (message (values
      (run ZodEmail.matches HtmlEmail.valid
         (fill (mkData (js "Zé") (email ana) (message ana))) mounted))) < 10)%nat)
  ∧ ∃ errs,
      zodResolver ZodEmail.matches (values
        (run ZodEmail.matches HtmlEmail.valid
           (fill (mkData (js "Zé") (email ana) (message ana))) mounted))
      = inl errs
      ∧ errs ≠ ∅.
Proof.
  assert ((js_length (name (values
      (run ZodEmail.matches HtmlEmail.valid
         (fill (mkData (js "Zé") (email ana) (message ana))) mounted))) < 3)%nat
   ∨ ZodEmail.matches (email (values
      (run ZodEmail.matches HtmlEmail.valid
         (fill (mkData (js "Zé") (email ana) (message ana))) mounted))) = false
   ∨ (js_length (message (values
      (run ZodEmail.matches HtmlEmail.valid
         (fill (mkData (js "Zé") (email ana) (message ana))) mounted))) < 10)%nat)
    as H by (left; vm_compute; lia).
  split; [exact H |].
  destruct (invalid_input_blocks_submission ZodEmail.matches HtmlEmail.valid _ H)
    as (errs & He & Hne & _).
  exists errs. split; [exact He | exact Hne].
Defined.

(** C8. In every reachable state with a request in flight there is exactly
    one; the three inputs and the submit button are disabled, and neither
    submitting again nor editing a field changes anything, at whatever time
    it is tried. *)
Theorem in_flight_disables_form (p b : jsstring → bool) (tr : list (N * Event)) :
  (0 < awaiting (run p b tr mounted))%nat →
  awaiting (run p b tr mounted) = 1%nat
  ∧ name_disabled (render (run p b tr mounted)) = true
  ∧ email_disabled (render (run p b tr mounted)) = true
  ∧ message_disabled (render (run p b tr mounted)) = true
  ∧ button_disabled (render (run p b tr mounted)) = true
  ∧ dispatch p b Submit (run p b tr mounted) = run p b tr mounted
  ∧ (∀ f v, dispatch p b (Input f v) (run p b tr mounted) = run p b tr mounted)
  ∧ (∀ d, awaiting (step p b (run p b tr mounted) (d, Submit)) = 1%nat
          ∧ network (step p b (run p b tr mounted) (d, Submit))
            = network (run p b tr mounted)).
Proof.
  intros H.
  destruct (reachable_consistent p b tr) as (Ha & _ & _).
  destruct (isSubmitting (run p b tr mounted)) eqn:E; [|lia].
  repeat split; try assumption.
  - rewrite dispatch_Submit, E. reflexivity.
  - intros f v. rewrite dispatch_Input, E. reflexivity.
  - unfold step. rewrite dispatch_Submit, advance_eq. simpl.
    rewrite E. exact Ha.
  - unfold step. rewrite dispatch_Submit, advance_eq. simpl.
    rewrite E. reflexivity.
Qed.

Lemma in_flight_disables_form_witness :
  (0 < awaiting (run ZodEmail.matches HtmlEmail.valid (fill ana ++ [(10%N, Submit)]) mounted))%nat
  ∧ button_disabled
      (render (run ZodEmail.matches HtmlEmail.valid (fill ana ++ [(10%N, Submit)]) mounted))
    = true.
Proof.
  assert (0 < awaiting (run ZodEmail.matches HtmlEmail.valid (fill ana ++ [(10%N, Submit)]) mounted))%nat
    as H by (vm_compute; lia).
  split; [exact H |].
  exact (proj1 (proj2 (proj2 (proj2 (proj2
    (in_flight_disables_form ZodEmail.matches HtmlEmail.valid (fill ana ++ [(10, Submit)]) H)))))).
Defined.

(** A successful attempt from end to end: the form is filled and submitted
    at 10 ms and the server answers 204 at 100 ms; the fields are empty, the
    success status is shown and one callback is pending, due at 5100 ms; at
    that time the status is gone. *)
Example successful_attempt :
  values (run ZodEmail.matches HtmlEmail.valid
            (fill ana ++ [(10, Submit); (90, Settle (Fulfilled (mkResponse 204)))])
            mounted) = empty_values
  ∧ submitStatus (run ZodEmail.matches HtmlEmail.valid
            (fill ana ++ [(10, Submit); (90, Settle (Fulfilled (mkResponse 204)))])
            mounted) = Some success_status
  ∧ timers (run ZodEmail.matches HtmlEmail.valid
            (fill ana ++ [(10, Submit); (90, Settle (Fulfilled (mkResponse 204)))])
            mounted) = [5100]
  ∧ submitStatus (advance 5000 (run ZodEmail.matches HtmlEmail.valid
            (fill ana ++ [(10, Submit); (90, Settle (Fulfilled (mkResponse 204)))])
            mounted)) = None.
Proof. vm_compute. repeat split; reflexivity. Qed.

(** ** The clearing callbacks *)

Section Timers.

Variable p : jsstring → bool.
Variable b : jsstring → bool.

Lemma clock_dispatch e c : clock (dispatch p b e c) = clock c.
Proof.
  destruct e as [f v| |o].
  - rewrite dispatch_Input. destruct (isSubmitting c); reflexivity.
  - rewrite dispatch_Submit. destruct (isSubmitting c); [reflexivity |].
    destruct (type_mismatch b (email (values c))); [reflexivity |].
    destruct (zodResolver p (values c)); reflexivity.
  - rewrite dispatch_Settle. destruct (awaiting c); [reflexivity |].
    rewrite handleSubmit_settled_eq. reflexivity.
Qed.

(** No event removes a pending callback: there is no [clearTimeout]. *)
Lemma timers_dispatch e c t : t ∈ timers c → t ∈ timers (dispatch p b e c).
Proof.
  intros H. destruct e as [f v| |o].
  - rewrite dispatch_Input. destruct (isSubmitting c); exact H.
  - rewrite dispatch_Submit. destruct (isSubmitting c); [exact H |].
    destruct (type_mismatch b (email (values c))); [exact H |].
    destruct (zodResolver p (values c)); exact H.
  - rewrite dispatch_Settle. destruct (awaiting c); [exact H |].
    rewrite handleSubmit_settled_eq. simpl. apply elem_of_app. left. exact H.
Qed.

Lemma clock_step c de : clock (step p b c de) = clock c + de.1.
Proof. unfold step. rewrite clock_dispatch, advance_eq. reflexivity. Qed.

Lemma timer_pending_step c de t :
  t ∈ timers c → clock c + de.1 < t → t ∈ timers (step p b c de).
Proof.
  intros H Hlt. unfold step. apply timers_dispatch.
  rewrite advance_eq. simpl. apply list_elem_of_filter. split; assumption.
Qed.

Lemma clock_run tr c : clock (run p b tr c) = clock c + duration tr.
Proof.
  revert c. induction tr as [|de tr IH]; intros c.
  - simpl. lia.
  - rewrite run_cons, IH, clock_step. simpl. lia.
Qed.

Lemma timer_pending_run tr c t :
  t ∈ timers c → clock c + duration tr < t → t ∈ timers (run p b tr c).
Proof.
  revert c. induction tr as [|de tr IH]; intros c H Hlt; [exact H |].
  simpl in Hlt. rewrite run_cons. apply IH.
  - apply timer_pending_step; [exact H | lia].
  - rewrite clock_step. lia.
Qed.

Lemma advance_fires d c t :
  t ∈ timers c → t ≤ clock c + d → submitStatus (advance d c) = None.
Proof.
  intros H Hle. rewrite advance_eq. simpl.
  destruct (filter _ (timers c)) eqn:E; [|reflexivity].
  exfalso. eapply (filter_nil_not_elem_of _ _ t E); [exact Hle | exact H].
Qed.

Lemma showing_step t s c de :
  showing t s c → is_submit de.2 = false → clock c + de.1 < t →
  showing t s (step p b c de).
Proof.
  intros (Hi & Ha & Ht & Hs) He Hlt. destruct de as [d e]. simpl in *.
  assert (advance d c =
          mkComponent (values c) (errors c) false (Some s) (clock c + d) [t]
            (network c) 0 (console c) (uncaught c) (isSubmitted c)) as Hadv.
  { rewrite advance_eq, Ht, Hi, Ha, Hs.
    rewrite !filter_cons, !filter_nil.
    destruct (decide (t ≤ clock c + d)); [lia |].
    destruct (decide (clock c + d < t)); [reflexivity | lia]. }
  unfold step. simpl. rewrite Hadv.
  destruct e as [f v| |o]; [| discriminate |].
  - rewrite dispatch_Input. repeat split.
  - rewrite dispatch_Settle. repeat split.
Qed.

Lemma showing_run t s tr c :
  showing t s c → forallb (λ de, negb (is_submit de.2)) tr = true →
  clock c + duration tr < t → showing t s (run p b tr c).
Proof.
  revert c. induction tr as [|de tr IH]; intros c H Hq Hlt; [exact H |].
  simpl in Hq, Hlt. apply andb_true_iff in Hq as [Hq1 Hq2].
  rewrite run_cons. apply IH; [| exact Hq2 |].
  - apply showing_step; [exact H | apply negb_true_iff, Hq1 | lia].
  - rewrite clock_step. lia.
Qed.

End Timers.

(** C5. The comment of line 58 promises that the message is hidden 5
    seconds after it is shown, and the claim that only one callback is
    live. The handler never cancels the callback of an earlier attempt:
    after the two attempts of [two_attempts] the status set at 1100 ms is
    shown and two callbacks are pending, due at 5100 ms and at 6100 ms; at
    5100 ms, 4000 ms after the status was set, the callback of the first
    attempt clears it. *)
Lemma stale_timer_clears_newer_status :
  (clock (run ZodEmail.matches HtmlEmail.valid two_attempts mounted) = 1100
   ∧ submitStatus (run ZodEmail.matches HtmlEmail.valid two_attempts mounted)
     = Some failure_status
   ∧ timers (run ZodEmail.matches HtmlEmail.valid two_attempts mounted) = [5100; 6100]
   ∧ submitStatus (advance 3999 (run ZodEmail.matches HtmlEmail.valid two_attempts mounted))
     = Some failure_status
   ∧ submitStatus (advance 4000 (run ZodEmail.matches HtmlEmail.valid two_attempts mounted))
     = None)
  ∧ ¬ (∀ tr : list (N * Event),
         (length (timers (run ZodEmail.matches HtmlEmail.valid tr mounted)) ≤ 1)%nat).
Proof.
  split.
  - vm_compute. repeat split; reflexivity.
  - intros H. specialize (H two_attempts).
    assert (length (timers (run ZodEmail.matches HtmlEmail.valid two_attempts mounted)) = 2%nat)
      as E by (vm_compute; reflexivity).
    rewrite E in H. lia.
Qed.

(** X13. When a pending request settles, the status is set and one
    clearing callback is added, due exactly 5000 ms later; no event removes
    a callback before it is due; whatever events happen in the meantime,
    the status is absent when the 5000 ms have passed. If no other
    callback was pending and no submit event occurs in the meantime, the
    status set stays until then. *)
Theorem status_cleared_5s_after_set (p b : jsstring → bool) (c : Component)
    (o : Outcome) (tr : list (N * Event)) :
  awaiting c = 1%nat →
  duration tr < 5000 →
  timers (dispatch p b (Settle o) c) = timers c ++ [clock c + 5000]
  ∧ submitStatus (dispatch p b (Settle o) c)
    = Some (if request_failed o then failure_status else success_status)
  ∧ (∀ t, t ∈ timers c → clock c + duration tr < t →
          t ∈ timers (run p b tr (dispatch p b (Settle o) c)))
  ∧ clock (advance (5000 - duration tr) (run p b tr (dispatch p b (Settle o) c)))
    = clock c + 5000
  ∧ submitStatus
      (advance (5000 - duration tr) (run p b tr (dispatch p b (Settle o) c)))
    = None
  ∧ (timers c = [] →
     forallb (λ de, negb (is_submit de.2)) tr = true →
     submitStatus (run p b tr (dispatch p b (Settle o) c))
     = submitStatus (dispatch p b (Settle o) c)).
Proof.
  intros Ha Hd.
  assert (dispatch p b (Settle o) c = handleSubmit_settled o c) as Hs
    by (rewrite dispatch_Settle, Ha; reflexivity).
  rewrite Hs, handleSubmit_settled_eq.
  set (c1 := mkComponent _ _ _ _ _ _ _ _ _ _ _).
  assert (clock c + 5000 ∈ timers (run p b tr c1)) as Hin.
  { apply timer_pending_run.
    - apply elem_of_app. right. apply list_elem_of_singleton. reflexivity.
    - simpl. lia. }
  repeat split.
  - intros t Ht Hlt. apply timer_pending_run; [|exact Hlt].
    apply elem_of_app. left. exact Ht.
  - rewrite advance_eq. simpl. rewrite clock_run. simpl. lia.
  - apply (advance_fires _ _ _ Hin). rewrite clock_run. simpl. lia.
  - intros Ht Hq.
    assert (showing (clock c + 5000)
              (if request_failed o then failure_status else success_status) c1)
      as Hsh.
    { repeat split; simpl; [rewrite Ha; reflexivity | rewrite Ht; reflexivity]. }
    destruct (showing_run p b _ _ tr c1 Hsh Hq) as (_ & _ & _ & ->);
      [simpl; lia | reflexivity].
Qed.

Lemma status_cleared_5s_after_set_witness :
  awaiting (run ZodEmail.matches HtmlEmail.valid (fill ana ++ [(10, Submit)]) mounted) = 1%nat
  ∧ duration [(1000, Input NameField (js "Bia")); (2000, Submit)] < 5000
  ∧ submitStatus
      (advance (5000 - duration [(1000, Input NameField (js "Bia")); (2000, Submit)])
         (run ZodEmail.matches HtmlEmail.valid [(1000, Input NameField (js "Bia")); (2000, Submit)]
            (dispatch ZodEmail.matches HtmlEmail.valid (Settle (Fulfilled (mkResponse 200)))
               (run ZodEmail.matches HtmlEmail.valid (fill ana ++ [(10, Submit)]) mounted))))
    = None.
Proof.
  assert (awaiting (run ZodEmail.matches HtmlEmail.valid (fill ana ++ [(10, Submit)]) mounted)
          = 1%nat) as Ha by (vm_compute; reflexivity).
  assert (duration [(1000, Input NameField (js "Bia")); (2000, Submit)] < 5000)
    as Hd by (vm_compute; reflexivity).
  split; [exact Ha | split; [exact Hd |]].
  exact (proj1 (proj2 (proj2 (proj2 (proj2
    (status_cleared_5s_after_set ZodEmail.matches HtmlEmail.valid
       (run ZodEmail.matches HtmlEmail.valid (fill ana ++ [(10, Submit)]) mounted)
       (Fulfilled (mkResponse 200))
       [(1000, Input NameField (js "Bia")); (2000, Submit)] Ha Hd)))))).
Defined.


(** * Further properties *)

(** ** Reachable states *)

Section Reachable.

Variable p : jsstring → bool.
Variable b : jsstring → bool.

(** A property of the mounted component that time and events preserve
    holds after every run. *)
Lemma reachable_ind (P : Component → Prop) :
  P mounted →
  (∀ d c, P c → P (advance d c)) →
  (∀ e c, P c → P (dispatch p b e c)) →
  ∀ tr, P (run p b tr mounted).
Proof.
  intros H0 Ha Hd tr.
  assert (∀ c, P c → P (run p b tr c)) as H; [|exact (H _ H0)].
  induction tr as [|de tr IH]; intros c Hc; [exact Hc |].
  rewrite run_cons. apply IH, Hd, Ha, Hc.
Qed.

Lemma tidy_reachable tr : tidy (run p b tr mounted).
Proof.
  apply reachable_ind; unfold tidy.
  - split; [left; reflexivity | exact I].
  - intros d c [Hs He]. rewrite advance_eq. simpl. split; [|exact He].
    destruct (filter _ (timers c)); [exact Hs | left; reflexivity].
  - intros e c [Hs He]. destruct e as [f v| |o].
    + rewrite dispatch_Input.
      destruct (isSubmitting c) eqn:E; simpl; rewrite ?E; auto.
    + rewrite dispatch_Submit.
      destruct (isSubmitting c) eqn:E; simpl; rewrite ?E; auto.
      destruct (type_mismatch b (email (values c))); simpl; rewrite ?E; auto.
      destruct (zodResolver p (values c)); simpl; auto.
    + rewrite dispatch_Settle. destruct (awaiting c); [auto |].
      rewrite handleSubmit_settled_eq. simpl. split; [|exact I].
      destruct (request_failed o); [right; right | right; left]; reflexivity.
Qed.

End Reachable.

(** X1. In every reachable state the banner is absent, or it is the success
    message on green, or the failure message on red: no other text is ever
    shown and the colour always agrees with the message. *)
Theorem banner_is_one_of_two (p b : jsstring → bool) (tr : list (N * Event)) :
  banner (render (run p b tr mounted)) = []
  ∨ (banner (render (run p b tr mounted))
       = [mkStatus true (js "Mensagem enviada com sucesso! Obrigado.")]
     ∧ map banner_className (banner (render (run p b tr mounted)))
       = [js "mt-6 text-center p-3 rounded-lg bg-green-900/50 text-green-300"])
  ∨ (banner (render (run p b tr mounted))
       = [mkStatus false (js "Ocorreu um erro ao enviar. Tente novamente.")]
     ∧ map banner_className (banner (render (run p b tr mounted)))
       = [js "mt-6 text-center p-3 rounded-lg bg-red-900/50 text-red-300"]).
Proof.
  destruct (tidy_reachable p b tr) as [[H | [H | H]] _]; unfold render; simpl;
    rewrite H.
  - left. reflexivity.
  - right. left. split; [reflexivity | vm_compute; reflexivity].
  - right. right. split; [reflexivity | vm_compute; reflexivity].
Qed.

(** X2. In every reachable state the button either reads "Enviando...",
    without icon, with exactly one request in flight and no error line
    under any field, or reads "Enviar Mensagem", with the icon, and no
    request is in flight. *)
Theorem button_reflects_in_flight (p b : jsstring → bool) (tr : list (N * Event)) :
  (button_label (render (run p b tr mounted)) = js "Enviando..."
   ∧ send_icon (run p b tr mounted) = false
   ∧ awaiting (run p b tr mounted) = 1%nat
   ∧ name_error (render (run p b tr mounted)) = None
   ∧ email_error (render (run p b tr mounted)) = None
   ∧ message_error (render (run p b tr mounted)) = None)
  ∨ (button_label (render (run p b tr mounted)) = js "Enviar Mensagem"
     ∧ send_icon (run p b tr mounted) = true
     ∧ awaiting (run p b tr mounted) = 0%nat).
Proof.
  destruct (reachable_consistent p b tr) as (Ha & _ & _).
  destruct (tidy_reachable p b tr) as [_ He].
  unfold render, send_icon. simpl.
  destruct (isSubmitting (run p b tr mounted)).
  - left. rewrite He. repeat split; assumption.
  - right. repeat split; assumption.
Qed.

(** ** The requests that leave *)

(** X3. Every request the component has ever made is a POST to
    /api/send-email with the JSON content type, and its body is the JSON
    text of data that passes the three rules: nothing that fails
    validation is ever sent. *)
Theorem only_validated_data_is_sent (p b : jsstring → bool) (tr : list (N * Event)) :
  Forall
    (λ r, url r = js "/api/send-email"
          ∧ method r = js "POST"
          ∧ headers r = [(js "Content-Type", js "application/json")]
          ∧ ∃ data, body r = JSON_stringify data
              ∧ (3 ≤ js_length (name data))%nat
              ∧ p (email data) = true
              ∧ (10 ≤ js_length (message data))%nat)
    (network (run p b tr mounted)).
Proof.
  apply (reachable_ind p b (λ c, Forall _ (network c))).
  - apply Forall_nil. exact I.
  - intros d c H. rewrite advance_eq. exact H.
  - intros e c H. destruct e as [f v| |o].
    + rewrite dispatch_Input. destruct (isSubmitting c); exact H.
    + rewrite dispatch_Submit. destruct (isSubmitting c); [exact H |].
      destruct (type_mismatch b (email (values c))); [exact H |].
      destruct (zodResolver p (values c)) as [errs|data] eqn:E; [exact H |].
      simpl. apply Forall_app. split; [exact H |].
      apply Forall_singleton. repeat split. exists data. split; [reflexivity |].
      rewrite zodResolver_cases in E.
      destruct (bool_decide (js_length (name (values c)) < 3)%nat) eqn:Hn;
        destruct (p (email (values c))) eqn:Hp;
        destruct (bool_decide (js_length (message (values c)) < 10)%nat) eqn:Hm;
        try discriminate E.
      injection E as <-.
      apply bool_decide_eq_false_1 in Hn, Hm. repeat split; [lia | exact Hp | lia].
    + rewrite dispatch_Settle. destruct (awaiting c); [exact H |].
      rewrite handleSubmit_settled_eq. exact H.
Qed.

(** ** The console *)

(** X4. When a pending request settles, a failure is logged once, under
    the label of line 53, with the error the [catch] received: the reason
    of the rejection, or the error of line 44 for a response that is not
    ok. A success logs nothing. *)
Theorem failure_is_logged_once (p b : jsstring → bool) (c : Component) (o : Outcome) :
  (0 < awaiting c)%nat →
  console (dispatch p b (Settle o) c) =
    console c ++
      match o with
      | Rejected reason => [(js "Falha ao enviar o formulário:", reason)]
      | Fulfilled r =>
        if ok r then []
        else [(js "Falha ao enviar o formulário:",
               Error (js "Houve uma falha na resposta do servidor."))]
      end.
Proof.
  intros H. rewrite dispatch_Settle.
  destruct (awaiting c); [lia |].
  rewrite handleSubmit_settled_eq. simpl.
  destruct o as [r|e]; simpl; [|reflexivity].
  destruct (ok r); simpl; [rewrite app_nil_r|]; reflexivity.
Qed.

Lemma failure_is_logged_once_witness :
  (0 < awaiting ana_submitted)%nat
  ∧ console (dispatch ZodEmail.matches HtmlEmail.valid (Settle (Fulfilled (mkResponse 404)))
               ana_submitted) =
    console ana_submitted ++
      (if ok (mkResponse 404) then []
       else [(js "Falha ao enviar o formulário:",
              Error (js "Houve uma falha na resposta do servidor."))]).
Proof.
  assert (0 < awaiting ana_submitted)%nat as H by (vm_compute; lia).
  split; [exact H |].
  exact (failure_is_logged_once ZodEmail.matches HtmlEmail.valid ana_submitted
           (Fulfilled (mkResponse 404)) H).
Defined.

(** X5. In every reachable state the requests made account for everything
    else: the log entries and the request in flight together, and the
    pending callbacks and the request in flight together, are never more
    than the requests made. No failure is logged and no clearing is
    scheduled without a request that has settled. *)
Theorem nothing_without_a_request (p b : jsstring → bool) (tr : list (N * Event)) :
  (length (console (run p b tr mounted)) + awaiting (run p b tr mounted)
   ≤ length (network (run p b tr mounted)))%nat
  ∧ (length (timers (run p b tr mounted)) + awaiting (run p b tr mounted)
     ≤ length (network (run p b tr mounted)))%nat.
Proof.
  apply (reachable_ind p b
           (λ c, (length (console c) + awaiting c ≤ length (network c))%nat
                 ∧ (length (timers c) + awaiting c ≤ length (network c))%nat)).
  - simpl. lia.
  - intros d c [H1 H2]. rewrite advance_eq. simpl. split; [exact H1 |].
    pose proof (length_filter (λ x, clock c + d < x) (timers c)). lia.
  - intros e c [H1 H2]. destruct e as [f v| |o].
    + rewrite dispatch_Input. destruct (isSubmitting c); simpl; lia.
    + rewrite dispatch_Submit. destruct (isSubmitting c); [lia |].
      destruct (type_mismatch b (email (values c))); [lia |].
      destruct (zodResolver p (values c)); simpl; rewrite ?length_app; simpl; lia.
    + rewrite dispatch_Settle. destruct (awaiting c) eqn:E; [lia |].
      rewrite handleSubmit_settled_eq. simpl.
      destruct (request_failed o); rewrite ?length_app; simpl; lia.
Qed.

(** ** The banner and its callbacks *)

Section Callbacks.

Variable p : jsstring → bool.
Variable b : jsstring → bool.

Lemma scheduled_advance d c : scheduled c → scheduled (advance d c).
Proof.
  intros [Ht Hs]. unfold scheduled. rewrite advance_eq. simpl. split.
  - apply Forall_forall. intros t Hin.
    apply list_elem_of_filter in Hin as [Hlt Hin].
    rewrite Forall_forall in Ht. specialize (Ht t Hin). lia.
  - destruct (filter (λ x, x ≤ clock c + d) (timers c)) eqn:E;
      [| left; reflexivity].
    destruct Hs as [Hs | Hs]; [left; exact Hs | right].
    destruct (timers c) as [|t ts] eqn:Et; [congruence |].
    intros Hnil.
    assert (t ∈ filter (λ x, clock c + d < x) (t :: ts)) as Hin.
    { apply list_elem_of_filter. split; [|left].
      destruct (decide (clock c + d < t)) as [Hlt | Hge]; [exact Hlt |].
      exfalso. eapply (filter_nil_not_elem_of _ _ t E); [lia | left]. }
    rewrite Hnil in Hin. inversion Hin.
Qed.

Lemma scheduled_dispatch e c : scheduled c → scheduled (dispatch p b e c).
Proof.
  intros [Ht Hs]. unfold scheduled. destruct e as [f v| |o].
  - rewrite dispatch_Input. destruct (isSubmitting c); split; assumption.
  - rewrite dispatch_Submit. destruct (isSubmitting c); [split; assumption |].
    destruct (type_mismatch b (email (values c))); [split; assumption |].
    destruct (zodResolver p (values c)); simpl; split; auto.
  - rewrite dispatch_Settle. destruct (awaiting c); [split; assumption |].
    rewrite handleSubmit_settled_eq. simpl. split.
    + apply Forall_app. split; [exact Ht |]. apply Forall_singleton. lia.
    + right. intros H. apply app_eq_nil in H as [_ H]. discriminate H.
Qed.

Lemma scheduled_reachable tr : scheduled (run p b tr mounted).
Proof.
  apply reachable_ind.
  - split; [apply Forall_nil; exact I | left; reflexivity].
  - intros d c. apply scheduled_advance.
  - intros e c. apply scheduled_dispatch.
Qed.

(** Without a settlement no callback is added. *)
Lemma timers_run_no_settle tr c t :
  existsb (λ de, is_settle de.2) tr = false →
  t ∈ timers (run p b tr c) → t ∈ timers c.
Proof.
  revert c. induction tr as [|[d e] tr IH]; intros c Hq Hin; [exact Hin |].
  simpl in Hq. apply orb_false_iff in Hq as [He Hq].
  rewrite run_cons in Hin. specialize (IH _ Hq Hin).
  unfold step in IH. simpl in IH.
  assert (t ∈ timers (advance d c)) as Ha.
  { destruct e as [f v| |o]; [| | discriminate He].
    - rewrite dispatch_Input in IH.
      destruct (isSubmitting (advance d c)); exact IH.
    - rewrite dispatch_Submit in IH.
      destruct (isSubmitting (advance d c)); [exact IH |].
      destruct (type_mismatch b (email (values (advance d c)))); [exact IH |].
      destruct (zodResolver p (values (advance d c))); exact IH. }
  rewrite advance_eq in Ha. simpl in Ha.
  apply list_elem_of_filter in Ha as [_ Ha]. exact Ha.
Qed.

End Callbacks.

(** X6. In every reachable state each pending callback is due after the
    present time and no later than 5000 ms from it, and whenever a status
    is shown at least one callback is pending: a banner cannot stay for
    good. *)
Theorem shown_status_has_a_callback (p b : jsstring → bool) (tr : list (N * Event)) :
  Forall (λ t, clock (run p b tr mounted) < t ≤ clock (run p b tr mounted) + 5000)
    (timers (run p b tr mounted))
  ∧ (submitStatus (run p b tr mounted) = None
     ∨ timers (run p b tr mounted) ≠ []).
Proof. exact (scheduled_reachable p b tr). Qed.

(** X7. From any reachable state, if no request settles during the next
    5000 ms, then at the end of them no status is shown and no callback is
    pending, whatever the user typed or submitted meanwhile. *)
Theorem quiet_after_5s_without_settlement (p b : jsstring → bool)
    (tr0 tr : list (N * Event)) :
  existsb (λ de, is_settle de.2) tr = false →
  duration tr ≤ 5000 →
  submitStatus
    (advance (5000 - duration tr) (run p b tr (run p b tr0 mounted))) = None
  ∧ timers
      (advance (5000 - duration tr) (run p b tr (run p b tr0 mounted))) = [].
Proof.
  intros Hq Hd.
  destruct (scheduled_reachable p b tr0) as [Ht0 _].
  assert (scheduled (run p b tr (run p b tr0 mounted))) as [_ Hs].
  { rewrite <- run_app. apply scheduled_reachable. }
  assert (∀ t, t ∈ timers (run p b tr (run p b tr0 mounted)) →
               t ≤ clock (run p b tr (run p b tr0 mounted)) + (5000 - duration tr))
    as Hdue.
  { intros t Hin. apply (timers_run_no_settle p b tr _ t Hq) in Hin.
    rewrite Forall_forall in Ht0. specialize (Ht0 t Hin).
    rewrite clock_run. lia. }
  rewrite advance_eq. simpl.
  assert (filter (λ x, clock (run p b tr (run p b tr0 mounted)) + (5000 - duration tr) < x)
            (timers (run p b tr (run p b tr0 mounted))) = []) as Hnone.
  { apply elem_of_nil_inv. intros t Hin.
    apply list_elem_of_filter in Hin as [Hlt Hin]. specialize (Hdue t Hin). lia. }
  split; [|exact Hnone].
  destruct (filter (λ x, x ≤ _) (timers (run p b tr (run p b tr0 mounted)))) eqn:E;
    [|reflexivity].
  destruct Hs as [Hs | Hs]; [exact Hs |].
  destruct (timers (run p b tr (run p b tr0 mounted))) as [|t ts] eqn:Et;
    [congruence |].
  exfalso. eapply (filter_nil_not_elem_of _ _ t E); [|left].
  apply Hdue. left.
Qed.

Lemma quiet_after_5s_without_settlement_witness :
  existsb (λ de, is_settle de.2) [(3000, Input NameField (js "Bia")); (1500, Submit)]
  = false
  ∧ duration [(3000, Input NameField (js "Bia")); (1500, Submit)] ≤ 5000
  ∧ submitStatus
      (advance (5000 - duration [(3000, Input NameField (js "Bia")); (1500, Submit)])
         (run ZodEmail.matches HtmlEmail.valid [(3000, Input NameField (js "Bia")); (1500, Submit)]
            (run ZodEmail.matches HtmlEmail.valid two_attempts mounted))) = None.
Proof.
  assert (existsb (λ de, is_settle de.2)
            [(3000, Input NameField (js "Bia")); (1500, Submit)] = false)
    as H1 by reflexivity.
  assert (duration [(3000, Input NameField (js "Bia")); (1500, Submit)] ≤ 5000)
    as H2 by (vm_compute; discriminate).
  split; [exact H1 | split; [exact H2 |]].
  exact (proj1 (quiet_after_5s_without_settlement ZodEmail.matches HtmlEmail.valid two_attempts
                  [(3000, Input NameField (js "Bia")); (1500, Submit)] H1 H2)).
Defined.

(** ** Submitting again *)

Ltac fields :=
  cbn [values errors isSubmitting submitStatus clock timers network awaiting
       console uncaught].

Lemma submit_valid p b c :
  isSubmitting c = false →
  type_mismatch b (email (values c)) = false →
  zodResolver p (values c) = inr (values c) →
  dispatch p b Submit c =
    mkComponent (values c) ∅ true None (clock c) (timers c)
      (network c ++ [send_email_request (values c)]) (S (awaiting c))
      (console c) (uncaught c) (isSubmitted c).
Proof.
  intros Hs Hm Hv. rewrite dispatch_Submit, Hs, Hm, Hv. reflexivity.
Qed.

Lemma settle_pending p b o c n :
  awaiting c = S n → dispatch p b (Settle o) c = handleSubmit_settled o c.
Proof. intros H. rewrite dispatch_Settle, H. reflexivity. Qed.

(** X8. After a failed attempt the same values can be sent again: when a
    form holding values that the browser's check and the resolver accept
    is submitted, the request fails, and the form is submitted once more,
    the second request equals the first, and the values are still in the
    fields. *)
Theorem retry_after_failure_resends (p b : jsstring → bool) (c : Component)
    (o : Outcome) (d1 d2 : N) :
  isSubmitting c = false →
  type_mismatch b (email (values c)) = false →
  zodResolver p (values c) = inr (values c) →
  request_failed o = true →
  network (step p b (step p b (dispatch p b Submit c) (d1, Settle o)) (d2, Submit))
  = network c ++ [send_email_request (values c); send_email_request (values c)]
  ∧ values (step p b (step p b (dispatch p b Submit c) (d1, Settle o)) (d2, Submit))
    = values c
  ∧ isSubmitting (step p b (step p b (dispatch p b Submit c) (d1, Settle o)) (d2, Submit))
    = true.
Proof.
  intros Hs Hm Hv Hf. unfold step. cbn [fst snd].
  rewrite (submit_valid p b c Hs Hm Hv).
  rewrite (advance_eq d1). fields.
  rewrite (settle_pending p b o _ (awaiting c)) by reflexivity.
  rewrite handleSubmit_settled_eq, Hf. fields.
  rewrite (advance_eq d2). fields.
  rewrite submit_valid by (try reflexivity; assumption). fields.
  rewrite <- app_assoc. repeat split.
Qed.

Lemma retry_after_failure_resends_witness :
  isSubmitting ana_filled = false
  ∧ type_mismatch HtmlEmail.valid (email (values ana_filled)) = false
  ∧ zodResolver ZodEmail.matches (values ana_filled) = inr (values ana_filled)
  ∧ request_failed (Fulfilled (mkResponse 500)) = true
  ∧ network (step ZodEmail.matches HtmlEmail.valid
               (step ZodEmail.matches HtmlEmail.valid
                  (dispatch ZodEmail.matches HtmlEmail.valid Submit ana_filled)
                  (90, Settle (Fulfilled (mkResponse 500))))
               (900, Submit))
    = network ana_filled
      ++ [send_email_request (values ana_filled);
          send_email_request (values ana_filled)].
Proof.
  assert (isSubmitting ana_filled = false) as H1 by (vm_compute; reflexivity).
  assert (type_mismatch HtmlEmail.valid (email (values ana_filled)) = false)
    as Hm by (vm_compute; reflexivity).
  assert (zodResolver ZodEmail.matches (values ana_filled)
          = inr (values ana_filled)) as H2 by (vm_compute; reflexivity).
  assert (request_failed (Fulfilled (mkResponse 500)) = true) as H3
    by reflexivity.
  split; [exact H1 | split; [exact Hm | split; [exact H2 | split; [exact H3 |]]]].
  exact (proj1 (retry_after_failure_resends ZodEmail.matches HtmlEmail.valid
                  ana_filled (Fulfilled (mkResponse 500)) 90 900 H1 Hm H2 H3)).
Defined.

(** X9. After a successful attempt the form is empty, and submitting it
    again sends nothing: the name and the message are reported as too
    short, whatever the email pattern is. *)
Theorem resubmit_after_success_is_blocked (p b : jsstring → bool) (c : Component)
    (o : Outcome) (d : N) :
  (0 < awaiting c)%nat →
  request_failed o = false →
  network (step p b (dispatch p b (Settle o) c) (d, Submit)) = network c
  ∧ name_error (render (step p b (dispatch p b (Settle o) c) (d, Submit)))
    = Some name_message
  ∧ message_error (render (step p b (dispatch p b (Settle o) c) (d, Submit)))
    = Some message_message
  ∧ awaiting (step p b (dispatch p b (Settle o) c) (d, Submit)) = pred (awaiting c).
Proof.
  intros Ha Hf. unfold step. cbn [fst snd].
  destruct (awaiting c) as [|n] eqn:E; [lia |].
  rewrite (settle_pending p b o c n E).
  rewrite handleSubmit_settled_eq, Hf, E.
  rewrite dispatch_Submit, advance_eq. fields.
  rewrite zodResolver_cases. unfold empty_values. cbn [name email message].
  change (bool_decide (js_length [] < 3)%nat) with true.
  change (bool_decide (js_length [] < 10)%nat) with true.
  destruct (p []); fields; unfold render; cbn [name_error message_error];
    repeat split.
Qed.

Lemma resubmit_after_success_is_blocked_witness :
  (0 < awaiting ana_submitted)%nat
  ∧ request_failed (Fulfilled (mkResponse 201)) = false
  ∧ network (step ZodEmail.matches HtmlEmail.valid
               (dispatch ZodEmail.matches HtmlEmail.valid (Settle (Fulfilled (mkResponse 201)))
                  ana_submitted) (50, Submit))
    = network ana_submitted.
Proof.
  assert (0 < awaiting ana_submitted)%nat as H1 by (vm_compute; lia).
  assert (request_failed (Fulfilled (mkResponse 201)) = false) as H2
    by reflexivity.
  split; [exact H1 | split; [exact H2 |]].
  exact (proj1 (resubmit_after_success_is_blocked ZodEmail.matches HtmlEmail.valid ana_submitted
                  (Fulfilled (mkResponse 201)) 50 H1 H2)).
Defined.

(** X10. After a submission that reaches [handleSubmit] (the form is not
    submitting and the browser's check of the email input lets it through)
    the line under each field shows that field's message exactly when its
    rule fails on the current values: the errors of an earlier attempt are
    replaced, and a valid submission removes them all. A submission the
    browser refuses leaves the lines as they were. *)
Theorem error_lines_follow_the_rules (p b : jsstring → bool) (c : Component) :
  isSubmitting c = false →
  name_error (render (dispatch p b Submit c)) =
    (if type_mismatch b (email (values c)) then name_error (render c)
     else if bool_decide (js_length (name (values c)) < 3)%nat
          then Some name_message else None)
  ∧ email_error (render (dispatch p b Submit c)) =
    (if type_mismatch b (email (values c)) then email_error (render c)
     else if p (email (values c)) then None else Some email_message)
  ∧ message_error (render (dispatch p b Submit c)) =
    (if type_mismatch b (email (values c)) then message_error (render c)
     else if bool_decide (js_length (message (values c)) < 10)%nat
          then Some message_message else None).
Proof.
  intros Hs. rewrite dispatch_Submit, Hs.
  destruct (type_mismatch b (email (values c))); [repeat split |].
  rewrite zodResolver_cases.
  destruct (bool_decide (js_length (name (values c)) < 3)%nat);
    destruct (p (email (values c)));
    destruct (bool_decide (js_length (message (values c)) < 10)%nat);
    simpl; repeat split; reflexivity.
Qed.

Lemma error_lines_follow_the_rules_witness :
  isSubmitting (set_errors {["email" := email_message]}
                  (set_values (mkData (js "Zé") (email ana) (message ana)) mounted))
  = false
  ∧ name_error
      (render (dispatch ZodEmail.matches HtmlEmail.valid Submit
                 (set_errors {["email" := email_message]}
                    (set_values (mkData (js "Zé") (email ana) (message ana))
                       mounted)))) =
    (if type_mismatch HtmlEmail.valid
          (email (values (set_errors {["email" := email_message]}
                    (set_values (mkData (js "Zé") (email ana) (message ana))
                       mounted))))
     then name_error
            (render (set_errors {["email" := email_message]}
                       (set_values (mkData (js "Zé") (email ana) (message ana))
                          mounted)))
     else if bool_decide
               (js_length (name (values
                  (set_errors {["email" := email_message]}
                     (set_values (mkData (js "Zé") (email ana) (message ana))
                        mounted)))) < 3)%nat
          then Some name_message else None).
Proof.
  split; [reflexivity |].
  exact (proj1 (error_lines_follow_the_rules ZodEmail.matches HtmlEmail.valid
    (set_errors {["email" := email_message]}
       (set_values (mkData (js "Zé") (email ana) (message ana)) mounted))
    eq_refl)).
Defined.

(** ** The body read back *)

Lemma strip_prefix_app pre s : strip_prefix pre (pre ++ s) = Some s.
Proof.
  induction pre as [|a pre IH]; simpl; [reflexivity |].
  rewrite N.eqb_refl. exact IH.
Qed.

Lemma unhex_hex_digit d : d < 16 → unhex (hex_digit d) = Some d.
Proof.
  intros H. unfold unhex, hex_digit.
  destruct (N.ltb_spec d 10).
  - destruct (N.leb_spec 0x30 (0x30 + d)); [|lia].
    destruct (N.leb_spec (0x30 + d) 0x39); [|lia].
    simpl. f_equal. lia.
  - destruct (N.leb_spec 0x30 (0x61 + (d - 10))); [|lia].
    destruct (N.leb_spec (0x61 + (d - 10)) 0x39); [lia |].
    destruct (N.leb_spec 0x61 (0x61 + (d - 10))); [|lia].
    destruct (N.leb_spec (0x61 + (d - 10)) 0x66); [|lia].
    simpl. f_equal. lia.
Qed.

Lemma nibble_lt x : N.land x 0xF < 16.
Proof.
  change 0xF with (N.ones 4). rewrite N.land_ones.
  apply N.mod_lt. discriminate.
Qed.

Lemma nibbles c :
  c < 0x10000 →
  N.land (N.shiftr c 12) 0xF * 4096 + N.land (N.shiftr c 8) 0xF * 256
  + N.land (N.shiftr c 4) 0xF * 16 + N.land c 0xF = c.
Proof.
  intros H. change 0xF with (N.ones 4).
  rewrite !N.land_ones, !N.shiftr_div_pow2.
  change (2 ^ 12) with 4096. change (2 ^ 8) with 256.
  change (2 ^ 4) with 16.
  zify. Z.to_euclidean_division_equations. lia.
Qed.

Lemma read_unicode_escape c tail :
  c < 0x10000 →
  read_string (unicode_escape c ++ tail) = cons_read c (read_string tail).
Proof.
  intros H. unfold unicode_escape.
  change (js "\u") with [0x5C; 0x75]. cbn [app read_string].
  change (0x5C =? 0x22) with false. change (0x5C =? 0x5C) with true.
  change (0x75 =? 0x75) with true. cbv iota.
  rewrite !unhex_hex_digit by apply nibble_lt.
  rewrite (nibbles c H). reflexivity.
Qed.

Lemma read_plain c tail :
  (c =? 0x22) = false → (c =? 0x5C) = false →
  read_string (c :: tail) = cons_read c (read_string tail).
Proof. intros H1 H2. cbn [read_string]. rewrite H1, H2. reflexivity. Qed.

Lemma read_quote_unit c tail :
  read_string (quote_unit c ++ tail) = cons_read c (read_string tail).
Proof.
  unfold quote_unit.
  destruct (N.eqb_spec c 0x08) as [->|]; [reflexivity |].
  destruct (N.eqb_spec c 0x09) as [->|]; [reflexivity |].
  destruct (N.eqb_spec c 0x0A) as [->|]; [reflexivity |].
  destruct (N.eqb_spec c 0x0C) as [->|]; [reflexivity |].
  destruct (N.eqb_spec c 0x0D) as [->|]; [reflexivity |].
  destruct (N.eqb_spec c 0x22) as [->|]; [reflexivity |].
  destruct (N.eqb_spec c 0x5C) as [->|]; [reflexivity |].
  destruct ((c <? 0x20) || is_high_surrogate c || is_low_surrogate c) eqn:E.
  - apply read_unicode_escape.
    unfold is_high_surrogate, is_low_surrogate in E.
    destruct (N.ltb_spec c 0x20); [lia |].
    destruct (N.leb_spec c 0xDBFF); [lia |].
    destruct (N.leb_spec c 0xDFFF); [lia |].
    rewrite !andb_false_r in E. discriminate E.
  - apply read_plain; apply N.eqb_neq; assumption.
Qed.

Lemma quote_units_pair c d r :
  quote_units (c :: d :: r) =
    if is_high_surrogate c && is_low_surrogate d
    then c :: d :: quote_units r
    else quote_unit c ++ quote_units (d :: r).
Proof. reflexivity. Qed.

Lemma surrogate_plain c :
  is_high_surrogate c || is_low_surrogate c = true →
  (c =? 0x22) = false ∧ (c =? 0x5C) = false.
Proof.
  unfold is_high_surrogate, is_low_surrogate. intros H.
  assert (0xD800 ≤ c) as Hc.
  { destruct (N.leb_spec 0xD800 c); [assumption |].
    destruct (N.leb_spec 0xDC00 c); [lia |]. discriminate H. }
  split; apply N.eqb_neq; lia.
Qed.

(** The reader returns the string that was quoted and what follows its
    closing quote. *)
Lemma read_quote_units s tail :
  read_string (quote_units s ++ 0x22 :: tail) = Some (s, tail).
Proof.
  remember (length s) as n eqn:Hn.
  assert (length s ≤ n)%nat as Hle by lia. clear Hn.
  revert s tail Hle.
  induction n as [|n IH]; intros [|c [|d r]] tail Hle; simpl in Hle;
    try lia; try reflexivity.
  - change (quote_units [c]) with (quote_unit c).
    rewrite read_quote_unit. reflexivity.
  - rewrite quote_units_pair.
    destruct (is_high_surrogate c && is_low_surrogate d) eqn:E.
    + apply andb_true_iff in E as [Ec Ed].
      destruct (surrogate_plain c) as [C1 C2]; [rewrite Ec; reflexivity |].
      destruct (surrogate_plain d) as [D1 D2];
        [rewrite Ed; apply orb_true_r |].
      cbn [app]. rewrite (read_plain c _ C1 C2), (read_plain d _ D1 D2).
      rewrite IH by lia. reflexivity.
    + rewrite <- app_assoc, read_quote_unit.
      rewrite IH by (simpl; lia). reflexivity.
Qed.

Lemma JSON_stringify_shape d :
  JSON_stringify d =
    (js "{" ++ QuoteJSONString (js "name") ++ js ":" ++ [0x22])
    ++ quote_units (name d) ++ 0x22 ::
    (js "," ++ QuoteJSONString (js "email") ++ js ":" ++ [0x22])
    ++ quote_units (email d) ++ 0x22 ::
    (js "," ++ QuoteJSONString (js "message") ++ js ":" ++ [0x22])
    ++ quote_units (message d) ++ 0x22 :: [0x7D].
Proof.
  unfold JSON_stringify, JSON_member.
  unfold QuoteJSONString at 2 4 6.
  rewrite <- !app_assoc. reflexivity.
Qed.

(** X11. The body of a request determines the data: reading the JSON text
    back gives the three strings that were encoded, whatever code units
    they hold (quotes, backslashes, control characters, surrogates alone
    or in pairs), so two different inputs never have the same body. *)
Theorem body_determines_data (d : ContactFormData) :
  read_body (JSON_stringify d) = Some d
  ∧ ∀ d', JSON_stringify d' = JSON_stringify d → d' = d.
Proof.
  assert (∀ x, read_body (JSON_stringify x) = Some x) as H.
  { intros [n e m]. rewrite JSON_stringify_shape. unfold read_body.
    cbn [name email message].
    rewrite strip_prefix_app. cbn [mbind option_bind].
    rewrite read_quote_units. cbn [mbind option_bind].
    rewrite strip_prefix_app. cbn [mbind option_bind].
    rewrite read_quote_units. cbn [mbind option_bind].
    rewrite strip_prefix_app. cbn [mbind option_bind].
    rewrite read_quote_units. reflexivity. }
  split; [apply H |].
  intros d' E. apply (f_equal read_body) in E. rewrite !H in E.
  injection E as ->. reflexivity.
Qed.

(** ** A request that does not settle *)

(** X12. While the form is submitting, only the settlement of the request
    unlocks it: whatever the user types or submits and however much time
    passes, the form stays disabled, and the field values, the errors, the
    requests made and the request in flight stay as they were. *)
Theorem only_settlement_unlocks (p b : jsstring → bool) (c : Component)
    (tr : list (N * Event)) :
  isSubmitting c = true →
  existsb (λ de, is_settle de.2) tr = false →
  isSubmitting (run p b tr c) = true
  ∧ button_disabled (render (run p b tr c)) = true
  ∧ values (run p b tr c) = values c
  ∧ errors (run p b tr c) = errors c
  ∧ network (run p b tr c) = network c
  ∧ awaiting (run p b tr c) = awaiting c.
Proof.
  revert c. induction tr as [|[d e] tr IH]; intros c Hs Hq.
  - repeat split; exact Hs.
  - simpl in Hq. apply orb_false_iff in Hq as [He Hq].
    rewrite run_cons.
    assert (isSubmitting (step p b c (d, e)) = true
            ∧ values (step p b c (d, e)) = values c
            ∧ errors (step p b c (d, e)) = errors c
            ∧ network (step p b c (d, e)) = network c
            ∧ awaiting (step p b c (d, e)) = awaiting c) as (S1 & S2 & S3 & S4 & S5).
    { unfold step. cbn [fst snd].
      destruct e as [f v| |o]; [| | discriminate He].
      - rewrite dispatch_Input, advance_eq. cbn [isSubmitting].
        rewrite Hs. repeat split; exact Hs.
      - rewrite dispatch_Submit, advance_eq. cbn [isSubmitting].
        rewrite Hs. repeat split; exact Hs. }
    destruct (IH _ S1 Hq) as (I1 & I2 & I3 & I4 & I5 & I6).
    rewrite <- S2, <- S3, <- S4, <- S5. repeat split; assumption.
Qed.

Lemma only_settlement_unlocks_witness :
  isSubmitting ana_submitted = true
  ∧ existsb (λ de, is_settle de.2)
      [(60000, Submit); (1, Input NameField (js "Bia"))] = false
  ∧ isSubmitting
      (run ZodEmail.matches HtmlEmail.valid [(60000, Submit); (1, Input NameField (js "Bia"))]
         ana_submitted) = true.
Proof.
  assert (isSubmitting ana_submitted = true) as H1 by (vm_compute; reflexivity).
  assert (existsb (λ de, is_settle de.2)
            [(60000, Submit); (1, Input NameField (js "Bia"))] = false) as H2
    by reflexivity.
  split; [exact H1 | split; [exact H2 |]].
  exact (proj1 (only_settlement_unlocks ZodEmail.matches HtmlEmail.valid ana_submitted
                  [(60000, Submit); (1, Input NameField (js "Bia"))] H1 H2)).
Defined.

(** ** Editing a field *)

Lemma resolver_field p f d :
  match zodResolver p d with
  | inl errs => errs !! field_key f
  | inr _ => None
  end = field_rule p f d.
Proof.
  rewrite zodResolver_cases. unfold field_rule.
  destruct (bool_decide (js_length (name d) < 3)%nat);
    destruct (p (email d));
    destruct (bool_decide (js_length (message d) < 10)%nat);
    destruct f; reflexivity.
Qed.

(** X14. An edit of a field of a form that is not submitting stores the
    new value and touches no other field. Before the first submission has
    ended the errors stay as they are; afterwards the error of the edited
    field is the message of its rule on the new value, or none when the
    rule holds, and the errors of the other fields stay as they are. *)
Theorem edit_revalidates_its_field (p b : jsstring → bool) (c : Component)
    (f g : FieldName) (v : jsstring) :
  isSubmitting c = false →
  values (dispatch p b (Input f v) c) = with_field f v (values c)
  ∧ errors (dispatch p b (Input f v) c) !! field_key f =
      (if isSubmitted c then field_rule p f (with_field f v (values c))
       else errors c !! field_key f)
  ∧ (g = f
     ∨ errors (dispatch p b (Input f v) c) !! field_key g
       = errors c !! field_key g).
Proof.
  intros Hs. rewrite dispatch_Input, Hs. cbn [values errors].
  split; [reflexivity |].
  destruct (isSubmitted c); [|split; [reflexivity | right; reflexivity]].
  unfold revalidate. cbn [values errors set_errors set_values].
  rewrite resolver_field.
  split.
  - destruct (field_rule p f (with_field f v (values c)));
      [apply lookup_insert_eq | apply lookup_delete_eq].
  - assert (g = f ∨ field_key f ≠ field_key g) as [Hg | Hk]
      by (destruct f, g; auto; right; discriminate).
    + left. exact Hg.
    + right. destruct (field_rule p f (with_field f v (values c)));
        [apply lookup_insert_ne | apply lookup_delete_ne]; exact Hk.
Qed.

Lemma edit_revalidates_its_field_witness :
  isSubmitting
    (run ZodEmail.matches HtmlEmail.valid
       (fill (mkData (js "Zé") (email ana) (message ana)) ++ [(10, Submit)])
       mounted) = false
  ∧ values
      (dispatch ZodEmail.matches HtmlEmail.valid (Input NameField (js "Zélia"))
         (run ZodEmail.matches HtmlEmail.valid
            (fill (mkData (js "Zé") (email ana) (message ana)) ++ [(10, Submit)])
            mounted))
    = with_field NameField (js "Zélia")
        (values
           (run ZodEmail.matches HtmlEmail.valid
              (fill (mkData (js "Zé") (email ana) (message ana)) ++ [(10, Submit)])
              mounted)).
Proof.
  assert (isSubmitting
    (run ZodEmail.matches HtmlEmail.valid
       (fill (mkData (js "Zé") (email ana) (message ana)) ++ [(10, Submit)])
       mounted) = false) as H by (vm_compute; reflexivity).
  split; [exact H |].
  exact (proj1 (edit_revalidates_its_field ZodEmail.matches HtmlEmail.valid
    (run ZodEmail.matches HtmlEmail.valid
       (fill (mkData (js "Zé") (email ana) (message ana)) ++ [(10, Submit)])
       mounted)
    NameField EmailField (js "Zélia") H)).
Defined.

(** The name error appears at the blocked submission and goes when the
    name is made long enough. *)
Example name_error_goes_on_edit :
  name_error (render
    (run ZodEmail.matches HtmlEmail.valid
       (fill (mkData (js "Zé") (email ana) (message ana)) ++ [(10, Submit)])
       mounted)) = Some name_message
  ∧ name_error (render
    (run ZodEmail.matches HtmlEmail.valid
       (fill (mkData (js "Zé") (email ana) (message ana))
        ++ [(10, Submit); (500, Input NameField (js "Zélia"))])
       mounted)) = None.
Proof. split; vm_compute; reflexivity. Qed.
